(** * EIP-712 structured-data encoding and signing (eip712/__init__.py)

    A shallow embedding of the Python module [eip712] and the properties
    of its type resolver, canonical type encoder, struct encoder, payload
    assembler and signer.

    Conventions of the embedding.
    - A Python [str] is a Rocq [string]; its characters are taken to be
      ASCII, so that codepoint order is [String.compare] and the UTF-8
      encoding of a text is its list of bytes.
    - A Python [bytes] is a list of [byte].
    - A raised exception is the [Raise] outcome of the [result] monad.
    - The hash function, the ABI encoder and the elliptic-curve signer are
      libraries outside the module: they are variables of a section. *)

From Stdlib Require Import ZArith NArith Ascii Lia.
From Stdlib Require String.
From Stdlib.Strings Require Import Byte.
From stdpp Require Import base option list gmap strings sorting relations.

(** ** Outcomes of a call *)

Inductive exn : Type :=
| KeyError (key : string)
| TypeError (what : string)
| AttributeError (what : string)
| IndexError
| OverflowError
| RecursionError
| Exception (message : string)
| LibraryError (what : string).

Inductive result (A : Type) : Type :=
| Ok (a : A)
| Raise (e : exn).
Arguments Ok {A} a.
Arguments Raise {A} e.

#[global] Instance result_ret : MRet result := fun A a => Ok a.
#[global] Instance result_bind : MBind result := fun A B f r =>
  match r with
  | Ok a => f a
  | Raise e => Raise e
  end.

#[global] Instance result_fmap : FMap result := fun A B f r =>
  match r with
  | Ok a => Ok (f a)
  | Raise e => Raise e
  end.

Definition is_ok {A} (r : result A) : bool :=
  match r with Ok _ => true | Raise _ => false end.

Definition ok_or {A} (d : A) (r : result A) : A :=
  match r with Ok a => a | Raise _ => d end.

(** ** Strings *)

(** [\w] of the [re] module on ASCII text: letters, digits, underscore. *)
Definition is_word_char (c : ascii) : bool :=
  let n := N_of_ascii c in
  ((48 <=? n) && (n <=? 57) || (65 <=? n) && (n <=? 90)
   || (97 <=? n) && (n <=? 122) || (n =? 95))%N.

(** [re.split(r'\W', s)[0]]: the text before the first non-word character. *)
Fixpoint re_split_W_0 (s : string) : string :=
  match s with
  | EmptyString => EmptyString
  | String c s' => if is_word_char c then String c (re_split_W_0 s') else EmptyString
  end.

(** A text made of word characters only. *)
Fixpoint all_word (s : string) : bool :=
  match s with
  | EmptyString => true
  | String c s' => is_word_char c && all_word s'
  end.

(** [s.endswith(']')] *)
Fixpoint endswith_bracket (s : string) : bool :=
  match s with
  | EmptyString => false
  | String c EmptyString => Ascii.eqb c "]"%char
  | String _ s' => endswith_bracket s'
  end.

(** [s[:-2]] *)
Definition drop_last2 (s : string) : string :=
  String.substring 0 (String.length s - 2) s.

(** [sep.join(l)] *)
Fixpoint join (sep : string) (l : list string) : string :=
  match l with
  | [] => ""
  | [x] => x
  | x :: l' => x +:+ sep +:+ join sep l'
  end.

(** [''.join(l)] *)
Definition concat_str (l : list string) : string := foldr String.append "" l.

(** ** Type declarations *)

Record field : Type := Field { field_name : string; field_type : string }.

#[global] Instance field_eq_dec : EqDecision field.
Proof. solve_decision. Defined.

Abbreviation TypeSet := (gmap string (list field)).

(** Truth value of [types.get(name)]: the name has a non-empty field list. *)
Definition has_fields (types : TypeSet) (name : string) : bool :=
  match types !! name with
  | Some (_ :: _) => true
  | _ => false
  end.

(** [types[name]] *)
Definition types_getitem (types : TypeSet) (name : string) : result (list field) :=
  match types !! name with
  | Some fields => Ok fields
  | None => Raise (KeyError name)
  end.

(** ** find_type_dependencies *)

(** The loop [for dep in deps: if dep not in results: results.append(dep)]. *)
Definition append_missing (deps results : list string) : list string :=
  foldl (fun acc dep => if bool_decide (dep ∈ acc) then acc else acc ++ [dep])
        results deps.

Section find_type_dependencies.
Context (types : TypeSet).

(** The loop over the fields of a type. [results] is one list object,
    mutated in place: the recursive call returns that same object, so
    [deps] and [results] both denote its contents after the call. *)
Fixpoint for_fields (rec : string -> list string -> option (list string))
    (fields : list field) (results : list string) : option (list string) :=
  match fields with
  | [] => Some results
  | f :: fields' =>
      match rec (field_type f) results with
      | None => None
      | Some deps => for_fields rec fields' (append_missing deps deps)
      end
  end.

(** [find_type_dependencies(primary_type, types, results)]; [None] is
    an exhausted recursion budget. *)
Fixpoint find_type_dependencies_from (fuel : nat) (primary_type : string)
    (results : list string) : option (list string) :=
  match fuel with
  | O => None
  | S fuel' =>
      let primary_type := re_split_W_0 primary_type in
      if bool_decide (primary_type ∈ results) || negb (has_fields types primary_type)
      then Some results
      else
        for_fields (find_type_dependencies_from fuel')
                   (default [] (types !! primary_type))
                   (results ++ [primary_type])
  end.

(** [find_type_dependencies(primary_type, types)]: [results] starts as
    a fresh empty list. One more level than there are type names is
    enough (lemma [find_type_dependencies_from_fuel]). *)
Definition find_type_dependencies (primary_type : string) : option (list string) :=
  find_type_dependencies_from (S (size types)) primary_type [].
End find_type_dependencies.

(** ** Values of a Record *)

#[local] Set Warnings "-register-all".
Inductive pyobj : Type :=
| VNone
| VBool (b : bool)
| VInt (n : Z)
| VStr (s : string)
| VBytes (bs : list byte)
| VList (items : list pyobj)
| VDict (items : list (string * pyobj)).

(** A [dict] keeps its keys in insertion order; a key occurs once. *)
Definition dict_get_with {A B : Type} (f : A -> B) : list (string * A) -> string -> option B :=
  fix go d key :=
    match d with
    | [] => None
    | (k, v) :: d' => if String.eqb k key then Some (f v) else go d' key
    end.

Definition dict_get {A : Type} : list (string * A) -> string -> option A :=
  dict_get_with (fun v => v).

(** [d[key] = v] *)
Fixpoint dict_set {A : Type} (d : list (string * A)) (key : string) (v : A) : list (string * A) :=
  match d with
  | [] => [(key, v)]
  | (k, v') :: d' => if String.eqb k key then (k, v) :: d' else (k, v') :: dict_set d' key v
  end.

(** [dict(pairs)]: a later pair with the same key replaces the value of
    the earlier one and keeps its place. *)
Definition dict_of_pairs {A : Type} (pairs : list (string * A)) : list (string * A) :=
  foldl (fun d kv => dict_set d kv.1 kv.2) [] pairs.

(** [data[name]], then [f] on the value found. Subscripting anything but
    a [dict] with a [str] is a [TypeError]. *)
Definition getitem_with {B : Type} (f : pyobj -> result B) (data : pyobj) (name : string) : result B :=
  match data with
  | VDict d =>
      match dict_get_with f d name with
      | Some r => r
      | None => Raise (KeyError name)
      end
  | _ => Raise (TypeError "subscript")
  end.

(** [value.encode('utf-8')] *)
Definition str_encode (v : pyobj) : result (list byte) :=
  match v with
  | VStr s => Ok (String.list_byte_of_string s)
  | _ => Raise (AttributeError "encode")
  end.

Definition chars (s : string) : list string :=
  (fun c => String c EmptyString) <$> String.list_ascii_of_string s.

(** [for v in value] when [value] holds no nested value: a [str] yields
    its characters, a [bytes] its integers. *)
Definition iter_atom (v : pyobj) : result (list pyobj) :=
  match v with
  | VStr s => Ok (VStr <$> chars s)
  | VBytes bs => Ok ((fun b => VInt (Z.of_N (Byte.to_N b))) <$> bs)
  | _ => Raise (TypeError "iter")
  end.

(** A value that holds no nested value. *)
Definition is_atom (v : pyobj) : Prop :=
  match v with
  | VBool _ | VInt _ | VStr _ | VBytes _ => True
  | _ => False
  end.

(** [re.search(r'^u?int(\d+)$', typ)]; [$] also matches before a final
    newline. *)
Definition is_digit (c : ascii) : bool :=
  let n := N_of_ascii c in ((48 <=? n) && (n <=? 57))%N.

Fixpoint digits_then_end (seen : bool) (s : string) : bool :=
  match s with
  | EmptyString => seen
  | String c s' =>
      if is_digit c then digits_then_end true s'
      else seen && Ascii.eqb c "010"%char && bool_decide (s' = EmptyString)
  end.

Definition is_int_type (typ : string) : bool :=
  match typ with
  | String "u" (String "i" (String "n" (String "t" s))) => digits_then_end false s
  | String "i" (String "n" (String "t" s)) => digits_then_end false s
  | _ => false
  end.

Definition zero_hex : string :=
  "0x0000000000000000000000000000000000000000000000000000000000000000".

(** ** The encoders *)

Section encoder.
(** The collaborators: [eth_utils.keccak] on bytes, the conversion to
    bytes that [keccak] applies to another kind of primitive,
    [eth_abi.encode], and the builtin [int] on a [str]. *)
Context (keccak : list byte -> list byte).
Context (to_bytes : pyobj -> result (list byte)).
Context (abi_encode : list string -> list pyobj -> result (list byte)).
Context (int_of_str : string -> result Z).
Context (types : TypeSet).

(** [keccak(value)] *)
Definition keccak_primitive (v : pyobj) : result (list byte) :=
  match v with
  | VBytes bs => Ok (keccak bs)
  | _ => bs ← to_bytes v; Ok (keccak bs)
  end.

(** *** encode_type *)

(** The text of an f-string that formats the builtin [type]. *)
Definition str_of_builtin_type : string := "<class 'type'>".

(** One round of the loop [for typ in deps]. *)
Definition encode_type_step (out : string) (typ : string) : result string :=
  children ← types_getitem types typ;
  match children with
  | [] => Raise (Exception ("No type definition specified: " +:+ str_of_builtin_type))
  | _ :: _ =>
      let defs := (fun t => field_type t +:+ " " +:+ field_name t) <$> children in
      Ok (out +:+ typ +:+ "(" +:+ join "," defs +:+ ")")
  end.

Fixpoint encode_type_loop (deps : list string) (out : string) : result string :=
  match deps with
  | [] => Ok out
  | typ :: deps' => out ← encode_type_step out typ; encode_type_loop deps' out
  end.

(** [sorted] on a list of [str]: codepoint order, [String.le]. *)
Definition sorted (l : list string) : list string :=
  merge_sort String.le l.

Definition encode_type (primary_type : string) : result string :=
  match find_type_dependencies types primary_type with
  | None => Raise RecursionError
  | Some deps =>
      let deps := sorted (filter (fun d => d ≠ primary_type) deps) in
      let deps := primary_type :: deps in
      encode_type_loop deps ""
  end.

(** *** hash_type *)

Definition hash_type (primary_type : string) : result (list byte) :=
  text ← encode_type primary_type;
  Ok (keccak (String.list_byte_of_string text)).

(** *** encode_data *)

(** The body of [encode_data]: [encode_field name typ v] stands for the
    call [_encode_field(name, typ, v)]. One round of the loop
    [for field in types[primary_type]] reads [data[field['name']]],
    encodes it, and turns the text given for an integer type into an
    integer. *)
Definition encode_member (encode_field : string -> string -> pyobj -> result (string * pyobj))
    (data : pyobj) (f : field) : result (string * pyobj) :=
  tv ← getitem_with (encode_field (field_name f) (field_type f)) data (field_name f);
  val ← (match tv.2 with
         | VStr s => if is_int_type tv.1 then VInt <$> int_of_str s else Ok tv.2
         | _ => Ok tv.2
         end);
  Ok (tv.1, val).

Definition for_each_field (encode_field : string -> string -> pyobj -> result (string * pyobj))
    (data : pyobj) : list field -> list string -> list pyobj -> result (list string * list pyobj) :=
  fix go fields encoded_types encoded_values :=
    match fields with
    | [] => Ok (encoded_types, encoded_values)
    | f :: fields' =>
        tv ← encode_member encode_field data f;
        go fields' (encoded_types ++ [tv.1]) (encoded_values ++ [tv.2])
    end.

Definition encode_data_with (encode_field : string -> string -> pyobj -> result (string * pyobj))
    (primary_type : string) (data : pyobj) : result (list byte) :=
  h ← hash_type primary_type;
  fields ← types_getitem types primary_type;
  tv ← for_each_field encode_field data fields ["bytes32"] [VBytes h];
  abi_encode tv.1 tv.2.

(** The body of [_encode_field]: [encode_struct typ] stands for
    [encode_data(typ, value, types)] and [encode_items parsed_type] for
    [[_encode_field(name, parsed_type, v) for v in value]]. *)
Definition encode_field_with (encode_struct : string -> result (list byte))
    (encode_items : string -> result (list (string * pyobj)))
    (name typ : string) (value : pyobj) : result (string * pyobj) :=
  if bool_decide (typ ∈ dom types) then
    match value with
    | VNone => Ok ("bytes32", VStr zero_hex)
    | _ => bs ← encode_struct typ; Ok ("bytes32", VBytes (keccak bs))
    end
  else
    match value with
    | VNone =>
        Raise (Exception ("Missing value for field " +:+ name +:+ " of type "
                          +:+ str_of_builtin_type))
    | _ =>
        if String.eqb typ "bytes" then
          h ← keccak_primitive value; Ok ("bytes32", VBytes h)
        else if String.eqb typ "string" then
          bs ← str_encode value; Ok ("bytes32", VBytes (keccak bs))
        else if endswith_bracket typ then
          let parsed_type := drop_last2 typ in
          pairs ← encode_items parsed_type;
          let type_value_pairs := dict_of_pairs pairs in
          bs ← abi_encode type_value_pairs.*1 type_value_pairs.*2;
          Ok ("bytes32", VBytes (keccak bs))
        else Ok (typ, value)
    end.

(** [_encode_field] on a value that holds no nested value (a [str], a
    [bytes], a number). Each array level shortens [typ], which bounds
    the recursion; subscripting such a value raises before any field
    of it is encoded. *)
Fixpoint encode_atom (fuel : nat) (name typ : string) (v : pyobj) : result (string * pyobj) :=
  encode_field_with
    (fun typ => encode_data_with (fun _ _ _ => Raise RecursionError) typ v)
    (fun parsed_type =>
       match fuel with
       | O => Raise RecursionError
       | S fuel' => items ← iter_atom v; mapM (encode_atom fuel' name parsed_type) items
       end)
    name typ v.

Fixpoint _encode_field (name typ : string) (value : pyobj) {struct value}
    : result (string * pyobj) :=
  encode_field_with
    (fun typ => encode_data_with _encode_field typ value)
    (fun parsed_type =>
       match value with
       | VList items => mapM (_encode_field name parsed_type) items
       | VDict d =>
           mapM (encode_atom (String.length parsed_type) name parsed_type) (VStr <$> d.*1)
       | VStr _ | VBytes _ =>
           items ← iter_atom value;
           mapM (encode_atom (String.length parsed_type) name parsed_type) items
       | _ => Raise (TypeError "iter")
       end)
    name typ value.

(** [[_encode_field(name, parsed_type, v) for v in value]]: a list
    yields its items, a dict its keys, a [str] its characters and a
    [bytes] its integers; a number cannot be iterated. *)
Definition encode_items (name parsed_type : string) (value : pyobj)
    : result (list (string * pyobj)) :=
  match value with
  | VList items => mapM (_encode_field name parsed_type) items
  | VDict d =>
      mapM (encode_atom (String.length parsed_type) name parsed_type) (VStr <$> d.*1)
  | VStr _ | VBytes _ =>
      items ← iter_atom value;
      mapM (encode_atom (String.length parsed_type) name parsed_type) items
  | _ => Raise (TypeError "iter")
  end.

Definition encode_data (primary_type : string) (data : pyobj) : result (list byte) :=
  encode_data_with _encode_field primary_type data.

(** *** hash_struct *)

Definition hash_struct (primary_type : string) (data : pyobj) : result (list byte) :=
  keccak <$> encode_data primary_type data.
End encoder.

(** ** eip712_encode *)

(** The dict [typed_data], read at its keys ['types'], ['primaryType'],
    ['domain'] and ['message']. *)
Record TypedData : Type := {
  td_types : TypeSet;
  td_primaryType : string;
  td_domain : pyobj;
  td_message : pyobj
}.

(** [bytes.fromhex('1901')] *)
Definition magic_1901 : list byte := [x19; x01].

Section eip712_encode.
Context (keccak : list byte -> list byte).
Context (to_bytes : pyobj -> result (list byte)).
Context (abi_encode : list string -> list pyobj -> result (list byte)).
Context (int_of_str : string -> result Z).

Definition eip712_encode (typed_data : TypedData) : result (list (list byte)) :=
  let hash_struct := hash_struct keccak to_bytes abi_encode int_of_str (td_types typed_data) in
  let parts := [magic_1901] in
  h ← hash_struct "EIP712Domain" (td_domain typed_data);
  let parts := parts ++ [h] in
  if bool_decide (td_primaryType typed_data ≠ "EIP712Domain") then
    h ← hash_struct (td_primaryType typed_data) (td_message typed_data);
    Ok (parts ++ [h])
  else Ok parts.
End eip712_encode.

(** ** eip712_signature *)

(** [payload]: a [bytes], or a list or tuple of [bytes]. *)
Inductive payload_arg : Type :=
| PayloadBytes (bs : list byte)
| PayloadSeq (segments : list (list byte)).

(** [private_key]: a [str] or a [bytes]. *)
Inductive key_arg : Type :=
| KeyStr (s : string)
| KeyBytes (bs : list byte).

Definition hex_digit (n : N) : ascii :=
  ascii_of_N (if (n <? 10)%N then 48 + n else 87 + n).

(** [bs.hex()] *)
Fixpoint hex (bs : list byte) : string :=
  match bs with
  | [] => EmptyString
  | b :: bs' =>
      let n := Byte.to_N b in
      String (hex_digit (n / 16)) (String (hex_digit (n mod 16)) (hex bs'))
  end.

(** [big_endian_to_int(bs)] *)
Definition big_endian_to_int (bs : list byte) : N :=
  foldl (fun acc b => (acc * 256 + Byte.to_N b)%N) 0%N bs.

Definition byte_of_N (n : N) : byte := default x00 (Byte.of_N (n mod 256)).

Fixpoint little_endian (length : nat) (n : N) : list byte :=
  match length with
  | O => []
  | S length' => byte_of_N n :: little_endian length' (n / 256)
  end.

(** The number of a byte string read from its last byte. *)
Definition little_endian_to_int (bs : list byte) : N :=
  foldr (fun b acc => (Byte.to_N b + 256 * acc)%N) 0%N bs.

(** [n.to_bytes(length, 'big')] *)
Definition int_to_bytes (n : N) (length : nat) : result (list byte) :=
  if (n <? 256 ^ N.of_nat length)%N then Ok (reverse (little_endian length n))
  else Raise OverflowError.

(** [s.startswith('0x')] *)
Definition startswith_0x (s : string) : bool :=
  match s with
  | String "0" (String "x" _) => true
  | _ => false
  end.

Section eip712_signature.
(** The signer of [coincurve]: the key type, [PrivateKey.from_hex] and
    [sign_recoverable] with its [hasher] argument. *)
Context (keccak : list byte -> list byte).
Context {PrivateKey : Type}.
Context (from_hex : string -> result PrivateKey).
Context (sign_recoverable :
           PrivateKey -> list byte -> (list byte -> list byte) -> result (list byte)).

Definition payload_bytes (payload : payload_arg) : list byte :=
  match payload with
  | PayloadSeq segments => concat segments
  | PayloadBytes bs => bs
  end.

Definition private_key_hex (private_key : key_arg) : string :=
  match private_key with
  | KeyStr s => if startswith_0x s then String.substring 2 (String.length s - 2) s else s
  | KeyBytes bs => hex bs
  end.

Definition eip712_signature (payload : payload_arg) (private_key : key_arg) : result string :=
  let payload := payload_bytes payload in
  let private_key := private_key_hex private_key in
  pk ← from_hex private_key;
  signature ← sign_recoverable pk payload keccak;
  b ← (match signature !! 64%nat with
       | Some b => Ok b
       | None => Raise IndexError
       end);
  let v := (Byte.to_N b + 27)%N in
  let r := big_endian_to_int (take 32 signature) in
  let s := big_endian_to_int (take 32 (drop 32 signature)) in
  rb ← int_to_bytes r 32;
  sb ← int_to_bytes s 32;
  vb ← int_to_bytes v 1;
  let final_sig := rb ++ sb ++ vb in
  Ok ("0x" +:+ hex final_sig).
End eip712_signature.

(** ** Specification of the type resolver *)

Section resolver_spec.
Context (types : TypeSet).

(** A composite type, as the resolver tests it: [types.get(name)] is
    true. *)
Definition composite (name : string) : Prop := has_fields types name = true.

#[global] Instance composite_dec (name : string) : Decision (composite name).
Proof. unfold composite. apply _. Defined.

(** [a] has a field whose type, cut at its first non-word character,
    is the composite type [b]. *)
Definition depends (a b : string) : Prop :=
  ∃ fields f, types !! a = Some fields ∧ f ∈ fields
              ∧ re_split_W_0 (field_type f) = b ∧ composite b.

(** Depth-first traversal with an explicit stack of type strings still
    to look at: the names are recorded in the order in which they are
    first discovered. *)
Inductive dfs_run : list string -> list string -> list string -> Prop :=
| dfs_done visited :
    dfs_run [] visited visited
| dfs_skip t stack visited r :
    re_split_W_0 t ∈ visited ∨ ¬ composite (re_split_W_0 t) ->
    dfs_run stack visited r ->
    dfs_run (t :: stack) visited r
| dfs_enter t stack visited fields r :
    re_split_W_0 t ∉ visited ->
    composite (re_split_W_0 t) ->
    types !! re_split_W_0 t = Some fields ->
    dfs_run ((field_type <$> fields) ++ stack) (visited ++ [re_split_W_0 t]) r ->
    dfs_run (t :: stack) visited r.

(** What one call adds to [results]. *)
Definition visit_spec (t : string) (results r : list string) : Prop :=
  ∃ new, r = results ++ new
    ∧ (NoDup results -> NoDup r)
    ∧ (composite (re_split_W_0 t) -> re_split_W_0 t ∈ r)
    ∧ (∀ x, x ∈ new ->
         composite x ∧ rtc depends (re_split_W_0 t) x ∧ ∀ y, depends x y -> y ∈ r)
    ∧ (re_split_W_0 t ∉ results -> composite (re_split_W_0 t) ->
         head new = Some (re_split_W_0 t))
    ∧ (re_split_W_0 t ∈ results ∨ ¬ composite (re_split_W_0 t) -> new = []).

(** The names not yet in [results] that a call could still add. *)
Definition pending (results : list string) : gset string :=
  filter (fun k => composite k ∧ k ∉ results) (dom types).
End resolver_spec.

(** ** Specification of the canonical type encoder *)

(** [TypeName(type1 name1,type2 name2,...)] *)
Definition type_signature (name : string) (fields : list field) : string :=
  name +:+ "(" +:+ join "," ((fun f => field_type f +:+ " " +:+ field_name f) <$> fields)
       +:+ ")".

Definition signature_of (types : TypeSet) (name : string) : string :=
  type_signature name (default [] (types !! name)).

(** ** The sample of example.py, with stand-ins for the libraries *)

Module Sample.
Definition types : TypeSet :=
  list_to_map
    [("EIP712Domain", [Field "name" "string"; Field "version" "string";
                       Field "chainId" "uint256"; Field "verifyingContract" "address"]);
     ("Mailbox", [Field "owner" "address"; Field "messages" "Message[]"]);
     ("Message", [Field "sender" "address"; Field "subject" "string";
                  Field "isSpam" "bool"; Field "body" "string"])].

(** A stand-in for the hash function: 32 bytes computed from the input. *)
Definition keccak (bs : list byte) : list byte :=
  reverse (little_endian 32
             (foldl (fun acc b => ((acc * 257 + Byte.to_N b + 1) mod 2 ^ 256)%N) 0%N bs)).

Definition to_bytes (v : pyobj) : result (list byte) :=
  match v with
  | VBool b => Ok [if b then x01 else x00]
  | _ => Raise (TypeError "to_bytes")
  end.

(** A stand-in for the ABI encoder: one 32-byte word per value. *)
Definition abi_word (typ : string) (v : pyobj) : result (list byte) :=
  match v with
  | VBytes bs =>
      if bool_decide (length bs ≤ 32) then Ok (bs ++ replicate (32 - length bs) x00)
      else Raise (LibraryError "abi")
  | VInt n => Ok (reverse (little_endian 32 (Z.to_N (n mod 2 ^ 256))))
  | VBool b => Ok (replicate 31 x00 ++ [if b then x01 else x00])
  | VStr s => Ok (take 32 (String.list_byte_of_string s ++ replicate 32 x00))
  | _ => Raise (LibraryError "abi")
  end.

Definition abi_encode (types : list string) (values : list pyobj) : result (list byte) :=
  if bool_decide (length types = length values)
  then @concat byte <$> mapM (fun tv => abi_word tv.1 tv.2) (zip types values)
  else Raise (LibraryError "abi").

Definition int_of_str (s : string) : result Z := Raise (LibraryError "int").

(** A stand-in for an ABI encoder that takes a [bytes32] value as bytes
    only, and refuses a text there. *)
Definition abi_word_bytes (typ : string) (v : pyobj) : result (list byte) :=
  match v with
  | VStr _ => if String.eqb typ "bytes32" then Raise (TypeError "bytes32") else abi_word typ v
  | _ => abi_word typ v
  end.

Definition abi_encode_bytes (types : list string) (values : list pyobj) : result (list byte) :=
  if bool_decide (length types = length values)
  then @concat byte <$> mapM (fun tv => abi_word_bytes tv.1 tv.2) (zip types values)
  else Raise (LibraryError "abi").

(** A stand-in for the builtin [int] on a text of decimal digits. *)
Fixpoint decimal (acc : Z) (s : string) : option Z :=
  match s with
  | EmptyString => Some acc
  | String c s' =>
      if is_digit c then decimal (10 * acc + (Z.of_N (N_of_ascii c) - 48)) s' else None
  end.

Definition int_of_decimal (s : string) : result Z :=
  match s with
  | EmptyString => Raise (LibraryError "int")
  | _ => match decimal 0 s with
         | Some n => Ok n
         | None => Raise (LibraryError "int")
         end
  end.

(** A stand-in for the signer: 64 bytes computed from the key and the
    payload, then the recovery id 1. *)
Definition from_hex (s : string) : result string :=
  if bool_decide (String.length s = 64) then Ok s else Raise (LibraryError "key").

Definition sign_recoverable (pk : string) (payload : list byte)
    (hasher : list byte -> list byte) : result (list byte) :=
  Ok (hasher payload ++ hasher (String.list_byte_of_string pk ++ payload) ++ [x01]).

Definition ADDRESS : string := "0x8e12f01dae5fe7f1122dc42f2cb084f2f9e8aa03".

Definition PRIVATE_KEY : string :=
  "0x8da4ef21b864d2cc526dbdb2a120bd2874c36c9d0a1fb7f8c63d7f7a8b41de8f".

Definition msg1 : pyobj :=
  VDict [("sender", VStr ADDRESS); ("subject", VStr "Hello World");
         ("body", VStr "The sparrow flies at midnight."); ("isSpam", VBool false)].

Definition msg2 : pyobj :=
  VDict [("sender", VStr ADDRESS);
         ("subject", VStr "You may have already Won! :dumb-emoji:");
         ("body", VStr "Click here for sweepstakes!"); ("isSpam", VBool true)].

Definition mailbox : pyobj :=
  VDict [("owner", VStr ADDRESS); ("messages", VList [msg1; msg2])].

Definition domain : pyobj :=
  VDict [("name", VStr "MyDApp"); ("version", VStr "3.0"); ("chainId", VInt 41);
         ("verifyingContract", VStr ADDRESS)].

Definition payload : TypedData :=
  {| td_types := types; td_primaryType := "Mailbox";
     td_domain := domain; td_message := mailbox |}.

(** A type with a nested record, and two records of it: one with the
    nested record set to [None], one without its key. *)
Definition mail_types : TypeSet :=
  list_to_map
    [("Mail", [Field "n" "uint256"; Field "to" "Person"; Field "contents" "string"]);
     ("Person", [Field "name" "string"])].

Definition mail_null : list (string * pyobj) :=
  [("n", VInt 5); ("to", VNone); ("contents", VStr "hi")].

Definition mail_absent : list (string * pyobj) :=
  [("n", VInt 5); ("contents", VStr "hi")].

(** The same [Mail] with its nested record given. *)
Definition mail_full : list (string * pyobj) :=
  [("n", VInt 5); ("to", VDict [("name", VStr "Bob")]); ("contents", VStr "hi")].
End Sample.

(** ** example.py *)

Section example.
Context (keccak : list byte -> list byte).
Context (to_bytes : pyobj -> result (list byte)).
Context (abi_encode : list string -> list pyobj -> result (list byte)).
Context (int_of_str : string -> result Z).

(** [b''.join(encoded_parts)] *)
Definition join_parts (encoded_parts : list (list byte)) : list byte := concat encoded_parts.

(** [get_eip712_payload()] *)
Definition get_eip712_payload : result (list byte) :=
  encoded_parts ← eip712_encode keccak to_bytes abi_encode int_of_str Sample.payload;
  Ok (join_parts encoded_parts).
End example.

(** * Properties *)

(** ** The type resolver *)

Section resolver.
Context (types : TypeSet).

Lemma append_missing_covered (deps results : list string) :
  (∀ d, d ∈ deps -> d ∈ results) -> append_missing deps results = results.
Proof.
  unfold append_missing. revert results.
  induction deps as [|d deps IH]; intros results Hin; [done|].
  cbn. rewrite bool_decide_eq_true_2 by (apply Hin; left).
  apply IH. intros d' Hd'. apply Hin. by right.
Qed.

Lemma append_missing_self (r : list string) : append_missing r r = r.
Proof. by apply append_missing_covered. Qed.

Lemma has_fields_lookup (name : string) :
  has_fields types name = true -> ∃ f fields, types !! name = Some (f :: fields).
Proof.
  unfold has_fields. destruct (types !! name) as [[|f fields]|]; [done| |done].
  eauto.
Qed.

Lemma find_type_dependencies_from_S (fuel : nat) (t : string) (results : list string) :
  find_type_dependencies_from types (S fuel) t results =
    if bool_decide (re_split_W_0 t ∈ results) || negb (has_fields types (re_split_W_0 t))
    then Some results
    else for_fields (find_type_dependencies_from types fuel)
                    (default [] (types !! re_split_W_0 t))
                    (results ++ [re_split_W_0 t]).
Proof. reflexivity. Qed.

Lemma visit_guard (t : string) (results : list string) :
  bool_decide (re_split_W_0 t ∈ results) || negb (has_fields types (re_split_W_0 t)) = true
  <-> re_split_W_0 t ∈ results ∨ ¬ composite types (re_split_W_0 t).
Proof.
  unfold composite. rewrite orb_true_iff, bool_decide_eq_true, negb_true_iff.
  destruct (has_fields types (re_split_W_0 t)); intuition congruence.
Qed.

Lemma visit_enter (t : string) (results : list string) :
  bool_decide (re_split_W_0 t ∈ results) || negb (has_fields types (re_split_W_0 t)) = false ->
  (re_split_W_0 t ∉ results)
  ∧ composite types (re_split_W_0 t)
  ∧ ∃ f fields, types !! re_split_W_0 t = Some (f :: fields).
Proof.
  intros Hguard.
  assert (¬ (re_split_W_0 t ∈ results ∨ ¬ composite types (re_split_W_0 t))) as Hn.
  { rewrite <- visit_guard, Hguard. done. }
  assert (composite types (re_split_W_0 t)) as Hc.
  { destruct (decide (composite types (re_split_W_0 t))); tauto. }
  split_and!; [tauto|done|by apply has_fields_lookup].
Qed.

(** *** What a call adds *)

Lemma visit_spec_prefix (t : string) (results r : list string) :
  visit_spec types t results r -> results `prefix_of` r.
Proof. intros (new & -> & _). by exists new. Qed.

Lemma for_fields_spec (rec : string -> list string -> option (list string)) :
  (∀ t results r, rec t results = Some r -> visit_spec types t results r) ->
  ∀ fields results r,
    for_fields rec fields results = Some r ->
    ∃ new, r = results ++ new
      ∧ (NoDup results -> NoDup r)
      ∧ (∀ f, f ∈ fields -> composite types (re_split_W_0 (field_type f)) ->
           re_split_W_0 (field_type f) ∈ r)
      ∧ (∀ x, x ∈ new ->
           composite types x
           ∧ (∃ f, f ∈ fields ∧ composite types (re_split_W_0 (field_type f))
                   ∧ rtc (depends types) (re_split_W_0 (field_type f)) x)
           ∧ ∀ y, depends types x y -> y ∈ r).
Proof.
  intros Hrec. induction fields as [|f fields IH]; intros results r Hrun; cbn in Hrun.
  - injection Hrun as <-. exists []. rewrite app_nil_r.
    split_and!; [done|done|intros f Hf; by apply elem_of_nil in Hf|].
    intros x Hx. by apply elem_of_nil in Hx.
  - destruct (rec (field_type f) results) as [deps|] eqn:Hcall; [|done].
    rewrite append_missing_self in Hrun.
    apply Hrec in Hcall as (new1 & -> & Hnd1 & Hin1 & Hnew1 & _ & Hskip).
    apply IH in Hrun as (new2 & -> & Hnd2 & Hin2 & Hnew2).
    exists (new1 ++ new2). rewrite app_assoc.
    split_and!; [done|by auto| |].
    + intros g [->|Hg]%elem_of_cons Hc; [|by auto].
      apply elem_of_app. left. by apply Hin1.
    + intros x [Hx|Hx]%elem_of_app.
      * destruct (Hnew1 x Hx) as (Hc & Hreach & Hclosed).
        split_and!; [done| |].
        -- exists f. split_and!; [by left| |done].
           destruct (decide (composite types (re_split_W_0 (field_type f)))) as [|Hn]; [done|].
           rewrite Hskip in Hx by (by right). by apply elem_of_nil in Hx.
        -- intros y Hy. apply elem_of_app. left. by apply Hclosed.
      * destruct (Hnew2 x Hx) as (Hc & (g & Hg & Hgc & Hreach) & Hclosed).
        split_and!; [done| |done].
        exists g. split_and!; [by right|done|done].
Qed.

Lemma find_type_dependencies_from_spec (fuel : nat) :
  ∀ t results r,
    find_type_dependencies_from types fuel t results = Some r ->
    visit_spec types t results r.
Proof.
  induction fuel as [|fuel IH]; intros t results r Hrun; [done|].
  rewrite find_type_dependencies_from_S in Hrun.
  destruct (bool_decide _ || negb _) eqn:Hguard.
  - apply visit_guard in Hguard. injection Hrun as <-.
    exists []. rewrite app_nil_r.
    split_and!; [done|done| | | |done].
    + intros Hc. by destruct Hguard.
    + intros x Hx. by apply elem_of_nil in Hx.
    + intros Hnin Hc. by destruct Hguard.
  - apply visit_enter in Hguard as (Hnin & Hc & f0 & fs0 & Hlk).
    rewrite Hlk in Hrun. cbn [default] in Hrun.
    apply (for_fields_spec _ IH) in Hrun as (new & -> & Hnd & Hin & Hnew).
    exists (re_split_W_0 t :: new).
    split_and!.
    + by rewrite <- app_assoc.
    + intros Hres. apply Hnd. apply NoDup_app. split_and!; [done| |apply NoDup_singleton].
      by intros x Hx ->%list_elem_of_singleton.
    + intros _. rewrite !elem_of_app, list_elem_of_singleton. tauto.
    + assert (∀ y, depends types (re_split_W_0 t) y ->
                   y ∈ (results ++ [re_split_W_0 t]) ++ new) as Hclosed.
      { intros y (fs & g & Hlk' & Hg & <- & Hyc).
        rewrite Hlk in Hlk'. injection Hlk' as <-. by apply Hin. }
      intros x [->|Hx]%elem_of_cons; [by split_and!|].
      destruct (Hnew x Hx) as (Hxc & (g & Hg & Hgc & Hreach) & Hxclosed).
      split_and!; [done| |done].
      eapply rtc_l; [|exact Hreach]. by exists (f0 :: fs0), g.
    + done.
    + intros [Hin'|Hn]; tauto.
Qed.

(** *** Termination *)

Lemma pending_prefix (results r : list string) :
  results `prefix_of` r -> pending types r ⊆ pending types results.
Proof.
  intros [new ->] k. unfold pending. rewrite !elem_of_filter, elem_of_app. tauto.
Qed.

Lemma pending_size (results : list string) : size (pending types results) ≤ size types.
Proof.
  rewrite <- size_dom. apply subseteq_size. unfold pending.
  intros k. rewrite elem_of_filter. tauto.
Qed.

Lemma pending_enter (t : string) (results : list string) :
  composite types t -> t ∉ results ->
  size (pending types (results ++ [t])) < size (pending types results).
Proof.
  intros Hc Hnin. apply subset_size. apply strict_spec_alt. split.
  - apply pending_prefix. by exists [t].
  - intros Heq. assert (t ∈ pending types (results ++ [t])) as Hin.
    { rewrite Heq. unfold pending. apply elem_of_filter. split; [done|].
      apply elem_of_dom. destruct (has_fields_lookup _ Hc) as (? & ? & ->). done. }
    unfold pending in Hin. apply elem_of_filter in Hin as [[_ Hin] _].
    apply Hin. apply elem_of_app. right. by left.
Qed.

Lemma find_type_dependencies_from_terminates (fuel : nat) :
  ∀ t results,
    size (pending types results) < fuel ->
    is_Some (find_type_dependencies_from types fuel t results).
Proof.
  induction fuel as [|fuel IH]; intros t results Hfuel; [lia|].
  rewrite find_type_dependencies_from_S.
  destruct (bool_decide _ || negb _) eqn:Hguard; [done|].
  apply visit_enter in Hguard as (Hnin & Hc & _).
  pose proof (pending_enter _ _ Hc Hnin) as Hlt.
  assert (size (pending types (results ++ [re_split_W_0 t])) < fuel) as Hfuel' by lia.
  clear Hlt Hfuel Hnin Hc.
  generalize dependent (results ++ [re_split_W_0 t]). clear results.
  induction (default [] (types !! re_split_W_0 t)) as [|f fields IHf];
    intros results Hfuel; [done|]. cbn.
  destruct (IH (field_type f) results Hfuel) as [deps Hcall]. rewrite Hcall.
  rewrite append_missing_self. apply IHf.
  apply find_type_dependencies_from_spec, visit_spec_prefix in Hcall.
  apply pending_prefix, subseteq_size in Hcall. lia.
Qed.

Lemma for_fields_ext (rec rec' : string -> list string -> option (list string)) :
  (∀ t results r, rec t results = Some r -> rec' t results = Some r) ->
  ∀ fields results r,
    for_fields rec fields results = Some r -> for_fields rec' fields results = Some r.
Proof.
  intros Hrec. induction fields as [|f fields IH]; intros results r Hrun; [done|].
  cbn in *. destruct (rec (field_type f) results) as [deps|] eqn:Hcall; [|done].
  rewrite (Hrec _ _ _ Hcall). by apply IH.
Qed.

Lemma find_type_dependencies_from_mono (fuel fuel' : nat) (t : string)
    (results r : list string) :
  fuel ≤ fuel' ->
  find_type_dependencies_from types fuel t results = Some r ->
  find_type_dependencies_from types fuel' t results = Some r.
Proof.
  revert fuel' t results r.
  induction fuel as [|fuel IH]; intros fuel' t results r Hle Hrun; [done|].
  destruct fuel' as [|fuel']; [lia|].
  rewrite find_type_dependencies_from_S in *.
  destruct (bool_decide _ || negb _); [done|].
  eapply for_fields_ext; [|exact Hrun].
  intros t' results' r' Hcall. apply (IH fuel'); [lia|done].
Qed.

(** The recursion budget of [find_type_dependencies] is enough, and a
    larger one gives the same list. *)
Lemma find_type_dependencies_from_fuel (fuel : nat) (t : string) :
  size types < fuel ->
  find_type_dependencies_from types fuel t [] = find_type_dependencies types t
  ∧ is_Some (find_type_dependencies types t).
Proof.
  intros Hfuel.
  destruct (find_type_dependencies_from_terminates (S (size types)) t []) as [r Hr].
  { pose proof (pending_size []). lia. }
  unfold find_type_dependencies. rewrite Hr. split; [|done].
  eapply find_type_dependencies_from_mono; [|exact Hr]. lia.
Qed.

(** *** The order of discovery *)

Lemma for_fields_dfs (rec : string -> list string -> option (list string)) :
  (∀ t results r, rec t results = Some r ->
     ∀ stack r', dfs_run types stack r r' -> dfs_run types (t :: stack) results r') ->
  ∀ fields results r,
    for_fields rec fields results = Some r ->
    ∀ stack r', dfs_run types stack r r' ->
                dfs_run types ((field_type <$> fields) ++ stack) results r'.
Proof.
  intros Hrec. induction fields as [|f fields IH]; intros results r Hrun stack r' Hrest.
  - injection Hrun as <-. done.
  - cbn in Hrun. destruct (rec (field_type f) results) as [deps|] eqn:Hcall; [|done].
    rewrite append_missing_self in Hrun. cbn.
    eapply Hrec; [exact Hcall|]. by eapply IH.
Qed.

Lemma find_type_dependencies_from_dfs (fuel : nat) :
  ∀ t results r,
    find_type_dependencies_from types fuel t results = Some r ->
    ∀ stack r', dfs_run types stack r r' -> dfs_run types (t :: stack) results r'.
Proof.
  induction fuel as [|fuel IH]; intros t results r Hrun stack r' Hrest; [done|].
  rewrite find_type_dependencies_from_S in Hrun.
  destruct (bool_decide _ || negb _) eqn:Hguard.
  - apply visit_guard in Hguard. injection Hrun as <-. by apply dfs_skip.
  - apply visit_enter in Hguard as (Hnin & Hc & f0 & fs0 & Hlk).
    rewrite Hlk in Hrun. cbn [default] in Hrun.
    eapply dfs_enter; [done|done|exact Hlk|].
    eapply for_fields_dfs; [exact IH|exact Hrun|exact Hrest].
Qed.

(** The traversal has one outcome. *)
Lemma dfs_run_functional (stack visited r r' : list string) :
  dfs_run types stack visited r -> dfs_run types stack visited r' -> r = r'.
Proof.
  intros Hrun. revert r'.
  induction Hrun as [visited|t stack visited r Hskip _ IH
                     |t stack visited fields r Hnin Hc Hlk _ IH]; intros r' Hrun'.
  - by inversion Hrun'.
  - inversion Hrun' as [|? ? ? ? _ Hrest|? ? ? ? ? Hnin Hc _ _]; subst.
    + by apply IH.
    + tauto.
  - inversion Hrun' as [|? ? ? ? Hskip _|? ? ? fields' ? _ _ Hlk' Hrest]; subst.
    + tauto.
    + rewrite Hlk in Hlk'. injection Hlk' as <-. by apply IH.
Qed.

Lemma re_split_W_0_idemp (s : string) : re_split_W_0 (re_split_W_0 s) = re_split_W_0 s.
Proof.
  induction s as [|c s IH]; [done|]. cbn.
  destruct (is_word_char c) eqn:Hc; [|done]. cbn. by rewrite Hc, IH.
Qed.

Lemma find_type_dependencies_from_stripped (fuel : nat) (t : string) (results : list string) :
  find_type_dependencies_from types fuel (re_split_W_0 t) results
  = find_type_dependencies_from types fuel t results.
Proof.
  destruct fuel as [|fuel]; [done|].
  by rewrite !find_type_dependencies_from_S, re_split_W_0_idemp.
Qed.

Lemma closed_reachable (r : list string) (a x : string) :
  (∀ b, b ∈ r -> ∀ y, depends types b y -> y ∈ r) ->
  rtc (depends types) a x -> a ∈ r -> x ∈ r.
Proof.
  intros Hclosed Hreach. induction Hreach as [|a b c Hstep _ IH]; [done|].
  intros Ha. apply IH. by eapply Hclosed.
Qed.

(** The list returned from a fresh [results]: the composite names
    reachable from the cut starting name, each once. *)
Lemma find_type_dependencies_reachable (primary_type : string) :
  ∃ r, find_type_dependencies types primary_type = Some r
    ∧ NoDup r
    ∧ (∀ x, x ∈ r -> composite types x)
    ∧ (∀ x, x ∈ r <-> composite types (re_split_W_0 primary_type)
                      ∧ rtc (depends types) (re_split_W_0 primary_type) x)
    ∧ (composite types (re_split_W_0 primary_type) ->
         head r = Some (re_split_W_0 primary_type))
    ∧ (¬ composite types (re_split_W_0 primary_type) -> r = []).
Proof.
  destruct (find_type_dependencies_from_fuel (S (size types)) primary_type) as [_ [r Hr]];
    [lia|].
  exists r. pose proof Hr as Hspec. unfold find_type_dependencies in Hspec.
  apply find_type_dependencies_from_spec in Hspec
    as (new & Hnew & Hnd & Hin & Hall & Hhead & Hskip).
  cbn in Hnew. subst new.
  split_and!.
  - done.
  - apply Hnd, NoDup_nil_2.
  - intros x Hx. by apply Hall.
  - intros x. split.
    + intros Hx. split; [|by apply Hall].
      destruct (decide (composite types (re_split_W_0 primary_type))) as [|Hn]; [done|].
      rewrite Hskip in Hx by (by right). by apply elem_of_nil in Hx.
    + intros [Hc Hreach]. eapply closed_reachable; [|exact Hreach|by apply Hin].
      intros b Hb. by apply Hall.
  - intros Hc. apply Hhead; [|done]. by intros ?%elem_of_nil.
  - intros Hn. apply Hskip. by right.
Qed.

(** C7 (amended): [find_type_dependencies] returns, for every primary
    type name and TypeSet, a duplicate-free list of composite type names
    (names with a non-empty field list) in the first-discovery order of
    a depth-first traversal: exactly the names reachable from the
    starting name cut at its first non-word character; a name already
    in [results] or without a non-empty field list is not added and its
    branch is left at once; and when the cut primary type has a
    non-empty field list it is the first element of the result. *)
Theorem find_type_dependencies_first_discovery (primary_type : string) :
  ∃ r, find_type_dependencies types primary_type = Some r
    ∧ NoDup r
    ∧ (∀ x, x ∈ r -> composite types x)
    ∧ (∀ x, x ∈ r <-> composite types (re_split_W_0 primary_type)
                      ∧ rtc (depends types) (re_split_W_0 primary_type) x)
    ∧ dfs_run types [primary_type] [] r
    ∧ find_type_dependencies types (re_split_W_0 primary_type) = Some r
    ∧ (∀ fuel t results,
         re_split_W_0 t ∈ results ∨ ¬ composite types (re_split_W_0 t) ->
         find_type_dependencies_from types (S fuel) t results = Some results)
    ∧ (composite types (re_split_W_0 primary_type) ->
         head r = Some (re_split_W_0 primary_type))
    ∧ (¬ composite types (re_split_W_0 primary_type) -> r = []).
Proof.
  destruct (find_type_dependencies_reachable primary_type)
    as (r & Hr & Hnd & Hcomp & Hreach & Hhead & Hnone).
  exists r. split_and!; try done.
  - eapply find_type_dependencies_from_dfs; [exact Hr|]. constructor.
  - unfold find_type_dependencies in *. by rewrite find_type_dependencies_from_stripped.
  - intros fuel t results Hguard. rewrite find_type_dependencies_from_S.
    apply visit_guard in Hguard. by rewrite Hguard.
Qed.
End resolver.

(** C7 as stated fails: a primary type that is a key of the TypeSet with
    an empty field list is not in the result. *)
Lemma find_type_dependencies_key_not_first :
  ¬ (∀ (types : TypeSet) (primary_type : string) (r : list string),
       find_type_dependencies types primary_type = Some r ->
       is_Some (types !! re_split_W_0 primary_type) ->
       head r = Some (re_split_W_0 primary_type)).
Proof.
  intros H. specialize (H {["A" := []]} "A" [] eq_refl).
  assert (is_Some (({["A" := []]} : TypeSet) !! re_split_W_0 "A")) as Hkey by (by eexists).
  specialize (H Hkey). discriminate H.
Qed.


(** ** The canonical type encoder *)

Lemma string_app_cons (x : ascii) (a b : string) : String x a +:+ b = String x (a +:+ b).
Proof. reflexivity. Qed.

Lemma string_app_assoc (a b c : string) : (a +:+ b) +:+ c = a +:+ b +:+ c.
Proof. induction a as [|x a IH]; [done|]. by rewrite !string_app_cons, IH. Qed.

Lemma string_app_nil_r (a : string) : a +:+ "" = a.
Proof. induction a as [|x a IH]; [done|]. by rewrite string_app_cons, IH. Qed.

Section canonical.
Context (types : TypeSet).

Lemma encode_type_step_composite (out typ : string) :
  composite types typ ->
  encode_type_step types out typ = Ok (out +:+ signature_of types typ).
Proof.
  intros (f & fields & Hlk)%has_fields_lookup.
  unfold encode_type_step, signature_of, types_getitem, type_signature.
  rewrite Hlk. cbn [mbind result_bind default]. done.
Qed.

Lemma encode_type_loop_composite (deps : list string) :
  ∀ out, (∀ d, d ∈ deps -> composite types d) ->
         encode_type_loop types deps out
         = Ok (out +:+ concat_str (signature_of types <$> deps)).
Proof.
  induction deps as [|d deps IH]; intros out Hall; cbn.
  - by rewrite string_app_nil_r.
  - rewrite encode_type_step_composite by (apply Hall; left).
    cbn [mbind result_bind]. rewrite IH by (intros; apply Hall; by right).
    by rewrite string_app_assoc.
Qed.

Lemma encode_type_unfold (primary_type : string) (r : list string) :
  find_type_dependencies types primary_type = Some r ->
  encode_type types primary_type
  = encode_type_loop types
      (primary_type :: sorted (filter (fun d => d ≠ primary_type) r)) "".
Proof. intros Hr. unfold encode_type. by rewrite Hr. Qed.

Lemma sorted_dependencies (primary_type : string) (r : list string) (d : string) :
  d ∈ sorted (filter (fun d => d ≠ primary_type) r) <-> d ≠ primary_type ∧ d ∈ r.
Proof. unfold sorted. by rewrite merge_sort_Permutation, list_elem_of_filter. Qed.

Lemma encode_type_defined (primary_type : string) (fields : list field) (r : list string) :
  types !! primary_type = Some fields ->
  fields ≠ [] ->
  find_type_dependencies types primary_type = Some r ->
  (∀ x, x ∈ r -> composite types x) ->
  encode_type types primary_type
  = Ok (type_signature primary_type fields
        +:+ concat_str (signature_of types
                          <$> sorted (filter (fun d => d ≠ primary_type) r))).
Proof.
  intros Hlk Hfields Hr Hcomp.
  rewrite (encode_type_unfold _ _ Hr), encode_type_loop_composite.
  - cbn. unfold signature_of at 1. by rewrite Hlk.
  - intros d [->|Hd]%elem_of_cons.
    + unfold composite, has_fields. rewrite Hlk. by destruct fields.
    + apply Hcomp. by apply sorted_dependencies in Hd as [_ Hd].
Qed.

Lemma encode_type_undefined (primary_type : string) :
  types !! primary_type = None ->
  encode_type types primary_type = Raise (KeyError primary_type).
Proof.
  intros Hlk. destruct (find_type_dependencies_reachable types primary_type) as (r & Hr & _).
  rewrite (encode_type_unfold _ _ Hr). cbn.
  unfold encode_type_step, types_getitem. by rewrite Hlk.
Qed.

Lemma encode_type_empty (primary_type : string) :
  types !! primary_type = Some [] ->
  encode_type types primary_type
  = Raise (Exception "No type definition specified: <class 'type'>").
Proof.
  intros Hlk. destruct (find_type_dependencies_reachable types primary_type) as (r & Hr & _).
  rewrite (encode_type_unfold _ _ Hr). cbn.
  unfold encode_type_step, types_getitem. by rewrite Hlk.
Qed.

(** C1: for a primary type that is a key of the TypeSet, the string that
    [encode_type] produces (and it produces one when the field list is
    not empty) is the signature of the primary type first, then the
    signatures of its transitive dependencies other than itself, sorted
    by name in codepoint order; a signature is the name followed by the
    declarations [type name], joined by commas, in parentheses. *)
Theorem encode_type_canonical (primary_type : string) (fields : list field) :
  types !! primary_type = Some fields ->
  (fields ≠ [] -> ∃ text, encode_type types primary_type = Ok text)
  ∧ ∀ text,
      encode_type types primary_type = Ok text ->
      ∃ deps,
        text = type_signature primary_type fields
               +:+ concat_str ((fun d => type_signature d (default [] (types !! d))) <$> deps)
        ∧ StronglySorted String.le deps
        ∧ NoDup deps
        ∧ (∀ d, d ∈ deps <->
                d ≠ primary_type
                ∧ composite types (re_split_W_0 primary_type)
                ∧ rtc (depends types) (re_split_W_0 primary_type) d)
        ∧ (re_split_W_0 primary_type = primary_type ->
           ∀ d, d ∈ deps <-> d ≠ primary_type ∧ rtc (depends types) primary_type d).
Proof.
  intros Hlk.
  destruct (find_type_dependencies_reachable types primary_type)
    as (r & Hr & Hnd & Hcomp & Hreach & _).
  destruct (decide (fields = [])) as [->|Hfields].
  { split; [done|]. intros text. by rewrite encode_type_empty. }
  pose proof (encode_type_defined _ _ _ Hlk Hfields Hr Hcomp) as Hok.
  split; [by eauto|].
  intros text Htext. rewrite Hok in Htext. injection Htext as <-.
  exists (sorted (filter (fun d => d ≠ primary_type) r)).
  split_and!.
  - done.
  - apply StronglySorted_merge_sort; apply _.
  - unfold sorted. rewrite merge_sort_Permutation. by apply NoDup_filter.
  - intros d. rewrite sorted_dependencies, Hreach. done.
  - intros Hword d. rewrite sorted_dependencies, Hreach, Hword.
    assert (composite types primary_type) as Hc.
    { unfold composite, has_fields. rewrite Hlk. by destruct fields. }
    tauto.
Qed.

(** C8 (amended): [encode_type] fails only on the primary type: with a
    lookup error when it is no key of the TypeSet, and with an
    exception when its field list is empty. With a non-empty field list
    it produces the canonical string, whether or not the type names of
    the fields have an entry in the TypeSet. *)
Theorem encode_type_failure (primary_type : string) :
  (types !! primary_type = None ->
     encode_type types primary_type = Raise (KeyError primary_type))
  ∧ (types !! primary_type = Some [] ->
       ∃ message, encode_type types primary_type = Raise (Exception message))
  ∧ (∀ f fields, types !! primary_type = Some (f :: fields) ->
       ∃ text, encode_type types primary_type = Ok text).
Proof.
  split_and!.
  - apply encode_type_undefined.
  - intros Hlk. rewrite encode_type_empty by done. eauto.
  - intros f fields Hlk.
    destruct (find_type_dependencies_reachable types primary_type)
      as (r & Hr & _ & Hcomp & _).
    eexists. by eapply encode_type_defined.
Qed.
End canonical.

(** C8 as stated fails: a field whose type name has no entry in the
    TypeSet is a leaf, and the canonical string is produced. *)
Lemma encode_type_undefined_dependency :
  let types : TypeSet := {["Mail" := [Field "to" "Person"]]} in
  types !! "Mail" = Some [Field "to" "Person"]
  ∧ types !! "Person" = None
  ∧ encode_type types "Mail" = Ok "Mail(Person to)".
Proof. split_and!; reflexivity. Qed.

Example find_type_dependencies_Mailbox :
  find_type_dependencies Sample.types "Mailbox" = Some ["Mailbox"; "Message"].
Proof. reflexivity. Qed.

Example encode_type_Mailbox :
  encode_type Sample.types "Mailbox"
  = Ok ("Mailbox(address owner,Message[] messages)"
        +:+ "Message(address sender,string subject,bool isSpam,string body)").
Proof. reflexivity. Qed.

(** Two dependencies met in the order [B], [A] are written in the order
    [A], [B]. *)
Example encode_type_sorts_dependencies :
  let types : TypeSet :=
    list_to_map [("P", [Field "b" "B"; Field "a" "A[]"]);
                 ("B", [Field "y" "uint8"]); ("A", [Field "x" "uint256"])] in
  find_type_dependencies types "P" = Some ["P"; "B"; "A"]
  ∧ encode_type types "P" = Ok "P(B b,A[] a)A(uint256 x)B(uint8 y)".
Proof. split; reflexivity. Qed.

(** ** The struct encoder *)

Lemma mapM_result_cons {A B : Type} (f : A -> result B) (x : A) (l : list A) :
  mapM f (x :: l) = y ← f x; k ← mapM f l; Ok (y :: k).
Proof. reflexivity. Qed.

Lemma mapM_result_app {A B : Type} (f : A -> result B) (l1 l2 : list A) :
  mapM f (l1 ++ l2) = a ← mapM f l1; b ← mapM f l2; Ok (a ++ b).
Proof.
  induction l1 as [|x l1 IH]; cbn.
  - by destruct (mapM f l2).
  - destruct (f x) as [y|e]; cbn; [|done]. rewrite IH.
    destruct (mapM f l1) as [a|e]; cbn; [|done]. by destruct (mapM f l2).
Qed.

Lemma mapM_result_length {A B : Type} (f : A -> result B) (l : list A) (k : list B) :
  mapM f l = Ok k -> length k = length l.
Proof.
  revert k. induction l as [|x l IH]; intros k; cbn.
  - by intros [= <-].
  - destruct (f x) as [y|e]; cbn; [|done].
    destruct (mapM f l) as [k'|e]; cbn; [|done].
    intros [= <-]. cbn. f_equal. by apply IH.
Qed.

Lemma dict_get_with_get {A B : Type} (f : A -> B) (d : list (string * A)) (key : string) :
  dict_get_with f d key = f <$> dict_get d key.
Proof.
  induction d as [|[k v] d IH]; [done|]. cbn.
  destruct (String.eqb k key); [done|]. exact IH.
Qed.

Section struct_encoder.
Context (keccak : list byte -> list byte).
Context (to_bytes : pyobj -> result (list byte)).
Context (abi_encode : list string -> list pyobj -> result (list byte)).
Context (int_of_str : string -> result Z).
Context (types : TypeSet).

Local Abbreviation field_of := (_encode_field keccak to_bytes abi_encode int_of_str types).
Local Abbreviation data_of := (encode_data keccak to_bytes abi_encode int_of_str types).
Local Abbreviation member_of := (encode_member int_of_str field_of).

Lemma _encode_field_unfold (name typ : string) (value : pyobj) :
  field_of name typ value
  = encode_field_with keccak to_bytes abi_encode types
      (fun typ => data_of typ value)
      (fun parsed_type =>
         encode_items keccak to_bytes abi_encode int_of_str types name parsed_type value)
      name typ value.
Proof. destruct value; reflexivity. Qed.

Lemma for_each_field_mapM (encode_field : string -> string -> pyobj -> result (string * pyobj))
    (data : pyobj) (fields : list field) :
  ∀ encoded_types encoded_values,
    for_each_field int_of_str encode_field data fields encoded_types encoded_values
    = members ← mapM (encode_member int_of_str encode_field data) fields;
      Ok (encoded_types ++ members.*1, encoded_values ++ members.*2).
Proof.
  induction fields as [|f fields IH]; intros tys vals; cbn.
  - by rewrite !app_nil_r.
  - destruct (encode_member int_of_str encode_field data f) as [tv|e]; cbn; [|done].
    rewrite IH. destruct (mapM _ fields) as [members|e]; cbn; [|done].
    by rewrite <- !app_assoc.
Qed.

Lemma encode_data_unfold (primary_type : string) (data : pyobj) :
  data_of primary_type data
  = h ← hash_type keccak types primary_type;
    fields ← types_getitem types primary_type;
    members ← mapM (member_of data) fields;
    abi_encode ("bytes32" :: members.*1) (VBytes h :: members.*2).
Proof.
  unfold encode_data, encode_data_with.
  destruct (hash_type keccak types primary_type) as [h|e]; cbn; [|done].
  destruct (types_getitem types primary_type) as [fields|e]; cbn; [|done].
  rewrite for_each_field_mapM. by destruct (mapM _ fields).
Qed.

Lemma hash_type_defined (primary_type : string) (f : field) (fields : list field) :
  types !! primary_type = Some (f :: fields) ->
  ∃ h, hash_type keccak types primary_type = Ok h.
Proof.
  intros Hlk. destruct (find_type_dependencies_reachable types primary_type)
    as (r & Hr & _ & Hcomp & _).
  unfold hash_type. erewrite encode_type_defined; [|exact Hlk|done|exact Hr|exact Hcomp].
  cbn. eauto.
Qed.

(** The encoding of a struct whose field list is [pre ++ f :: post],
    when the fields before [f] encode. *)
Lemma encode_data_at_field (primary_type : string) (data : pyobj)
    (pre post : list field) (f : field) (mpre : list (string * pyobj)) :
  types !! primary_type = Some (pre ++ f :: post) ->
  mapM (member_of data) pre = Ok mpre ->
  ∃ h, hash_type keccak types primary_type = Ok h
    ∧ data_of primary_type data
      = m ← member_of data f;
        mpost ← mapM (member_of data) post;
        abi_encode ("bytes32" :: mpre.*1 ++ m.1 :: mpost.*1)
                   (VBytes h :: mpre.*2 ++ m.2 :: mpost.*2).
Proof.
  intros Hlk Hpre.
  assert (∃ g fields, pre ++ f :: post = g :: fields) as (g & fields & Heq).
  { destruct pre; cbn; eauto. }
  rewrite Heq in Hlk. destruct (hash_type_defined _ _ _ Hlk) as [h Hh].
  exists h. split; [done|].
  rewrite encode_data_unfold, Hh. unfold types_getitem. rewrite Hlk, <- Heq.
  cbn [mbind result_bind]. rewrite mapM_result_app, Hpre. cbn [mbind result_bind].
  rewrite mapM_result_cons.
  destruct (member_of data f) as [m|e]; cbn [mbind result_bind]; [|done].
  destruct (mapM (member_of data) post) as [mpost|e]; cbn [mbind result_bind]; [|done].
  by rewrite !fmap_app, !fmap_cons.
Qed.

Lemma encode_member_absent (d : list (string * pyobj)) (f : field) :
  dict_get d (field_name f) = None ->
  member_of (VDict d) f = Raise (KeyError (field_name f)).
Proof.
  intros Hget. unfold encode_member, getitem_with.
  by rewrite dict_get_with_get, Hget.
Qed.

Lemma encode_field_null_composite (name typ : string) :
  typ ∈ dom types -> field_of name typ VNone = Ok ("bytes32", VStr zero_hex).
Proof.
  intros Hin. rewrite _encode_field_unfold. unfold encode_field_with.
  by rewrite bool_decide_eq_true_2.
Qed.

Lemma encode_member_null_composite (d : list (string * pyobj)) (f : field) :
  field_type f ∈ dom types ->
  dict_get d (field_name f) = Some VNone ->
  member_of (VDict d) f = Ok ("bytes32", VStr zero_hex).
Proof.
  intros Hin Hget. unfold encode_member, getitem_with.
  rewrite dict_get_with_get, Hget. cbn [fmap option_fmap option_map].
  by rewrite encode_field_null_composite.
Qed.

Lemma encode_field_null_scalar (name typ : string) :
  typ ∉ dom types ->
  field_of name typ VNone
  = Raise (Exception ("Missing value for field " +:+ name +:+ " of type <class 'type'>")).
Proof.
  intros Hin. rewrite _encode_field_unfold. unfold encode_field_with.
  by rewrite bool_decide_eq_false_2.
Qed.

(** The encoding of a struct one of whose fields, of composite type, is
    [None]: the field raises nothing, its entry in the list handed to
    the ABI encoder has the type [bytes32] and, as value, the text
    [zero_hex], and the outcome of [encode_data] is the outcome of the
    ABI encoder on that list. *)
Theorem encode_data_null_nested_record (primary_type : string)
    (d : list (string * pyobj)) (pre post : list field) (f : field)
    (mpre mpost : list (string * pyobj)) :
  types !! primary_type = Some (pre ++ f :: post) ->
  field_type f ∈ dom types ->
  dict_get d (field_name f) = Some VNone ->
  mapM (member_of (VDict d)) pre = Ok mpre ->
  mapM (member_of (VDict d)) post = Ok mpost ->
  field_of (field_name f) (field_type f) VNone = Ok ("bytes32", VStr zero_hex)
  ∧ zero_hex = "0x" +:+ hex (replicate 32 x00)
  ∧ ∃ h, hash_type keccak types primary_type = Ok h
      ∧ data_of primary_type (VDict d)
        = abi_encode ("bytes32" :: mpre.*1 ++ "bytes32" :: mpost.*1)
                     (VBytes h :: mpre.*2 ++ VStr zero_hex :: mpost.*2).
Proof.
  intros Hlk Hin Hget Hpre Hpost. split_and!.
  - by apply encode_field_null_composite.
  - reflexivity.
  - destruct (encode_data_at_field _ (VDict d) _ _ _ _ Hlk Hpre) as (h & Hh & ->).
    exists h. split; [done|].
    by rewrite encode_member_null_composite, Hpost.
Qed.

(** C10: when the record has no key for a declared field, reading that
    field raises a lookup error, whatever the declared type of the
    field, and [encode_data] does not return; the zero substitute is
    the outcome for a key that is present with the value [None]. *)
Theorem encode_data_absent_key (primary_type : string)
    (d : list (string * pyobj)) (pre post : list field) (f : field) :
  types !! primary_type = Some (pre ++ f :: post) ->
  dict_get d (field_name f) = None ->
  member_of (VDict d) f = Raise (KeyError (field_name f))
  ∧ (∀ mpre, mapM (member_of (VDict d)) pre = Ok mpre ->
             data_of primary_type (VDict d) = Raise (KeyError (field_name f)))
  ∧ (∃ e, data_of primary_type (VDict d) = Raise e)
  ∧ (field_type f ∈ dom types ->
     ∀ d', dict_get d' (field_name f) = Some VNone ->
           member_of (VDict d') f = Ok ("bytes32", VStr zero_hex)).
Proof.
  intros Hlk Hget.
  assert (∀ mpre, mapM (member_of (VDict d)) pre = Ok mpre ->
                  data_of primary_type (VDict d) = Raise (KeyError (field_name f))) as Hkey.
  { intros mpre Hpre.
    destruct (encode_data_at_field _ (VDict d) _ _ _ _ Hlk Hpre) as (h & Hh & ->).
    by rewrite encode_member_absent. }
  split_and!.
  - by apply encode_member_absent.
  - exact Hkey.
  - destruct (mapM (member_of (VDict d)) pre) as [mpre|e] eqn:Hpre; [by eauto|].
    assert (∃ g fields, pre ++ f :: post = g :: fields) as (g & fields & Heq).
    { destruct pre; cbn; eauto. }
    rewrite Heq in Hlk. destruct (hash_type_defined _ _ _ Hlk) as [h Hh].
    exists e. rewrite encode_data_unfold, Hh. unfold types_getitem.
    rewrite Hlk, <- Heq. cbn [mbind result_bind].
    by rewrite mapM_result_app, Hpre.
  - intros Hin d' Hget'. by apply encode_member_null_composite.
Qed.

(** *** Values without nested values *)

Lemma substring_0_length (n : nat) (s : string) :
  String.length (String.substring 0 n s) ≤ n.
Proof.
  revert s. induction n as [|n IH]; intros [|c s]; cbn; try lia.
  specialize (IH s). lia.
Qed.

Lemma endswith_bracket_length (typ : string) :
  endswith_bracket typ = true -> 0 < String.length typ.
Proof. destruct typ; [done|]. cbn. lia. Qed.

Lemma mapM_result_ext {A B : Type} (f g : A -> result B) (l : list A) :
  (∀ x, f x = g x) -> mapM f l = mapM g l.
Proof.
  intros Hfg. induction l as [|x l IH]; [done|].
  by rewrite !mapM_result_cons, Hfg, IH.
Qed.

(** The budget of [encode_atom] is never used up: any budget of at least
    the length of [typ] gives the same outcome. *)
Lemma encode_atom_fuel (fuel fuel' : nat) :
  ∀ name typ v,
    String.length typ ≤ fuel -> String.length typ ≤ fuel' ->
    encode_atom keccak to_bytes abi_encode int_of_str types fuel name typ v
    = encode_atom keccak to_bytes abi_encode int_of_str types fuel' name typ v.
Proof.
  revert fuel'. induction fuel as [|fuel IH]; intros fuel' name typ v Hle Hle'.
  - destruct typ; [|cbn in Hle; lia].
    destruct fuel'; cbn; unfold encode_field_with; repeat case_match; done.
  - destruct fuel' as [|fuel'].
    { destruct typ; [|cbn in Hle'; lia].
      cbn; unfold encode_field_with; repeat case_match; done. }
    cbn [encode_atom]. unfold encode_field_with.
    destruct (bool_decide (typ ∈ dom types)); [done|].
    destruct v; try done;
      (destruct (String.eqb typ "bytes"); [done|];
       destruct (String.eqb typ "string"); [done|];
       destruct (endswith_bracket typ) eqn:Hend; [|done];
       apply endswith_bracket_length in Hend;
       pose proof (substring_0_length (String.length typ - 2) typ);
       destruct (iter_atom _) as [items|e]; [|done]; cbn [mbind result_bind];
       erewrite mapM_result_ext; [reflexivity|];
       intros x; apply IH; unfold drop_last2; lia).
Qed.

(** Subscripting a value that is no dict raises before any field is
    encoded: the outcome does not depend on [encode_field]. *)
Lemma encode_data_with_atom
    (encode_field encode_field' : string -> string -> pyobj -> result (string * pyobj))
    (typ : string) (v : pyobj) :
  is_atom v ->
  encode_data_with keccak abi_encode int_of_str types encode_field typ v
  = encode_data_with keccak abi_encode int_of_str types encode_field' typ v.
Proof.
  intros Hv. unfold encode_data_with.
  destruct (hash_type keccak types typ) as [h|e]; [|done]. cbn [mbind result_bind].
  destruct (types_getitem types typ) as [fields|e]; [|done]. cbn [mbind result_bind].
  destruct fields as [|f fields]; [done|].
  destruct v; try done.
Qed.

(** On such a value [_encode_field] is [encode_atom]. *)
Lemma _encode_field_atom (name typ : string) (v : pyobj) :
  is_atom v ->
  field_of name typ v
  = encode_atom keccak to_bytes abi_encode int_of_str types (String.length typ) name typ v.
Proof.
  intros Hv. rewrite _encode_field_unfold.
  destruct (String.length typ) as [|n] eqn:Hlen.
  - destruct typ; [|done]. cbn [encode_atom]. unfold encode_field_with.
    destruct (bool_decide ("" ∈ dom types)).
    + destruct v; try done;
        by rewrite (encode_data_with_atom _ (fun _ _ _ => Raise RecursionError)).
    + by destruct v.
  - cbn [encode_atom]. unfold encode_field_with.
    destruct (bool_decide (typ ∈ dom types)).
    + destruct v; try done;
        by rewrite (encode_data_with_atom _ (fun _ _ _ => Raise RecursionError)).
    + pose proof (substring_0_length (String.length typ - 2) typ) as Hsub.
      destruct v; try done;
        (destruct (String.eqb typ "bytes"); [done|];
         destruct (String.eqb typ "string"); [done|];
         destruct (endswith_bracket typ); [|done]; cbn [encode_items];
         try done;
         destruct (iter_atom _) as [items|e]; [|done]; cbn [mbind result_bind];
         erewrite mapM_result_ext; [reflexivity|];
         intros x; apply encode_atom_fuel; unfold drop_last2; lia).
Qed.

(** *** Array-typed fields *)

Lemma endswith_bracket_not_bytes (typ : string) :
  endswith_bracket typ = true -> String.eqb typ "bytes" = false ∧ String.eqb typ "string" = false.
Proof.
  intros Hend. split; apply String.eqb_neq; intros ->; discriminate Hend.
Qed.

Lemma encode_field_array (name typ : string) (items : list pyobj) :
  typ ∉ dom types ->
  endswith_bracket typ = true ->
  field_of name typ (VList items)
  = pairs ← mapM (field_of name (drop_last2 typ)) items;
    bs ← abi_encode (dict_of_pairs pairs).*1 (dict_of_pairs pairs).*2;
    Ok ("bytes32", VBytes (keccak bs)).
Proof.
  intros Hin Hend. rewrite _encode_field_unfold. unfold encode_field_with.
  rewrite bool_decide_eq_false_2 by done.
  destruct (endswith_bracket_not_bytes _ Hend) as [-> ->]. by rewrite Hend.
Qed.

Lemma encode_field_composite_bytes32 (name typ : string) (value : pyobj) (p : string * pyobj) :
  typ ∈ dom types -> field_of name typ value = Ok p -> p.1 = "bytes32".
Proof.
  intros Hin. rewrite _encode_field_unfold. unfold encode_field_with.
  rewrite bool_decide_eq_true_2 by done.
  destruct value; try (by intros [= <-]);
    (destruct (data_of typ _) as [out|e]; cbn; [by intros [= <-]|done]).
Qed.

Lemma mapM_composite_bytes32 (name typ : string) (items : list pyobj)
    (ps : list (string * pyobj)) :
  typ ∈ dom types -> mapM (field_of name typ) items = Ok ps ->
  Forall (fun p => p.1 = "bytes32") ps.
Proof.
  intros Hin. revert ps. induction items as [|v items IH]; intros ps; cbn.
  - intros [= <-]. constructor.
  - destruct (field_of name typ v) as [p|e] eqn:Hp; cbn; [|done].
    destruct (mapM (field_of name typ) items) as [ps'|e]; cbn; [|done].
    intros [= <-]. constructor; [by eapply encode_field_composite_bytes32|by apply IH].
Qed.

Lemma dict_of_pairs_snoc {A : Type} (ps : list (string * A)) (p : string * A) :
  dict_of_pairs (ps ++ [p]) = dict_set (dict_of_pairs ps) p.1 p.2.
Proof. unfold dict_of_pairs. by rewrite foldl_app. Qed.

Lemma dict_of_pairs_same_key {A : Type} (key : string) (ps : list (string * A)) :
  Forall (fun p => p.1 = key) ps ->
  dict_of_pairs ps = [] ∨ ∃ v, dict_of_pairs ps = [(key, v)].
Proof.
  induction ps as [|p ps IH] using rev_ind; intros Hall; [by left|].
  apply Forall_app in Hall as [Hps Hp]. rewrite Forall_singleton in Hp.
  right. exists p.2. rewrite dict_of_pairs_snoc, Hp.
  destruct (IH Hps) as [->|[v ->]]; cbn; [done|].
  by rewrite String.eqb_refl.
Qed.

Lemma dict_of_pairs_last {A : Type} (key : string) (ps : list (string * A)) (p : string * A) :
  Forall (fun p => p.1 = key) ps -> p.1 = key ->
  dict_of_pairs (ps ++ [p]) = [(key, p.2)].
Proof.
  intros Hps Hp. rewrite dict_of_pairs_snoc, Hp.
  destruct (dict_of_pairs_same_key key ps Hps) as [->|[v ->]]; cbn; [done|].
  by rewrite String.eqb_refl.
Qed.

Lemma encode_field_array_composite (name typ : string) (init : list pyobj) (last : pyobj)
    (ps : list (string * pyobj)) (p : string * pyobj) :
  typ ∉ dom types ->
  endswith_bracket typ = true ->
  drop_last2 typ ∈ dom types ->
  mapM (field_of name (drop_last2 typ)) init = Ok ps ->
  field_of name (drop_last2 typ) last = Ok p ->
  field_of name typ (VList (init ++ [last]))
  = bs ← abi_encode ["bytes32"] [p.2]; Ok ("bytes32", VBytes (keccak bs)).
Proof.
  intros Hin Hend Hbase Hps Hp.
  rewrite encode_field_array, mapM_result_app, Hps by done. cbn. rewrite Hp. cbn.
  erewrite dict_of_pairs_last;
    [done|by eapply mapM_composite_bytes32|by eapply encode_field_composite_bytes32].
Qed.

(** C2 fails on the code: of an array of two or more composite
    elements only the hash of the last element reaches the ABI encoder,
    since the (type, value) pairs are collected in a dict keyed by the
    type [bytes32]; the elements before the last one do not change the
    hash of the field. *)
Theorem encode_field_array_last_only (name typ : string) (init init' : list pyobj)
    (last : pyobj) (ps ps' : list (string * pyobj)) (p : string * pyobj) :
  typ ∉ dom types ->
  endswith_bracket typ = true ->
  drop_last2 typ ∈ dom types ->
  mapM (field_of name (drop_last2 typ)) init = Ok ps ->
  mapM (field_of name (drop_last2 typ)) init' = Ok ps' ->
  field_of name (drop_last2 typ) last = Ok p ->
  field_of name typ (VList (init ++ [last]))
  = (bs ← abi_encode ["bytes32"] [p.2]; Ok ("bytes32", VBytes (keccak bs)))
  ∧ field_of name typ (VList (init ++ [last])) = field_of name typ (VList (init' ++ [last])).
Proof.
  intros Hin Hend Hbase Hps Hps' Hp.
  rewrite (encode_field_array_composite _ _ _ _ _ _ Hin Hend Hbase Hps Hp).
  by rewrite (encode_field_array_composite _ _ _ _ _ _ Hin Hend Hbase Hps' Hp).
Qed.

Lemma encode_field_scalar (name typ : string) (value : pyobj) :
  typ ∉ dom types -> value ≠ VNone ->
  String.eqb typ "bytes" = false -> String.eqb typ "string" = false ->
  endswith_bracket typ = false ->
  field_of name typ value = Ok (typ, value).
Proof.
  intros Hin Hv Hb Hs Hend. rewrite _encode_field_unfold. unfold encode_field_with.
  rewrite bool_decide_eq_false_2, Hb, Hs, Hend by done. by destruct value.
Qed.

Lemma mapM_scalar (name typ : string) (items : list pyobj) :
  typ ∉ dom types -> Forall (fun v => v ≠ VNone) items ->
  String.eqb typ "bytes" = false -> String.eqb typ "string" = false ->
  endswith_bracket typ = false ->
  mapM (field_of name typ) items = Ok ((fun v => (typ, v)) <$> items).
Proof.
  intros Hin Hall Hb Hs Hend. induction Hall as [|v items Hv _ IH]; [done|].
  rewrite mapM_result_cons, encode_field_scalar, IH by done. done.
Qed.

(** C6 fails on the code: of a type [Base[N]] the code removes the
    last two characters only, so the elements are looked up under a
    name such as [Message[], which is no composite type: they are not
    encoded as structs, and the last one is handed to the ABI encoder
    as it is, under that name. *)
Theorem encode_field_fixed_size_array (name typ : string) (init : list pyobj) (last : pyobj) :
  typ ∉ dom types ->
  endswith_bracket typ = true ->
  drop_last2 typ ∉ dom types ->
  endswith_bracket (drop_last2 typ) = false ->
  drop_last2 typ ≠ "bytes" ->
  drop_last2 typ ≠ "string" ->
  Forall (fun v => v ≠ VNone) (init ++ [last]) ->
  drop_last2 "Message[3]" = "Message["
  ∧ field_of name typ (VList (init ++ [last]))
    = (bs ← abi_encode [drop_last2 typ] [last]; Ok ("bytes32", VBytes (keccak bs))).
Proof.
  intros Hin Hend Hbase Hend' Hb%String.eqb_neq Hs%String.eqb_neq Hall.
  split; [reflexivity|].
  rewrite encode_field_array, mapM_scalar by done. cbn.
  rewrite fmap_app. cbn.
  erewrite dict_of_pairs_last; [done| |done].
  apply Forall_fmap, Forall_true. done.
Qed.
End struct_encoder.

(** C4 fails on the code: a [None] value of a field that is no composite
    type does raise, and the message names the field, but in place of the
    declared type it carries the text of the builtin [type]: the message
    is the same whatever the declared type. *)
Theorem encode_data_missing_value_message
    (keccak : list byte -> list byte) (to_bytes : pyobj -> result (list byte))
    (abi_encode : list string -> list pyobj -> result (list byte))
    (int_of_str : string -> result Z) :
  encode_data keccak to_bytes abi_encode int_of_str
    {["T" := [Field "x" "uint256"]]} "T" (VDict [("x", VNone)])
  = Raise (Exception "Missing value for field x of type <class 'type'>")
  ∧ ∀ (types : TypeSet) (name typ : string),
      typ ∉ dom types ->
      _encode_field keccak to_bytes abi_encode int_of_str types name typ VNone
      = Raise (Exception ("Missing value for field " +:+ name
                          +:+ " of type <class 'type'>")).
Proof.
  split; [reflexivity|].
  intros types name typ Htyp. by apply encode_field_null_scalar.
Qed.

(** C3 fails on the code: for a nested record that is [None] the field
    raises nothing, but what it contributes under [bytes32] is the text
    [0x] followed by 64 zeros, 66 characters, and not 32 zero bytes,
    where the branch of a nested record that is given contributes the
    bytes of a hash. [encode_data] is then the outcome of the ABI
    encoder on a list that holds that text: with an encoder that takes a
    [bytes32] value as bytes only, the struct with its nested record
    given is encoded and the struct with [None] raises. *)
Theorem encode_data_null_nested_record_text
    (keccak : list byte -> list byte) (to_bytes : pyobj -> result (list byte))
    (abi_encode : list string -> list pyobj -> result (list byte))
    (int_of_str : string -> result Z) :
  (∀ (types : TypeSet) (name typ : string),
      typ ∈ dom types ->
      _encode_field keccak to_bytes abi_encode int_of_str types name typ VNone
      = Ok ("bytes32", VStr zero_hex))
  ∧ String.length zero_hex = 66
  ∧ (∀ bs, VStr zero_hex ≠ VBytes bs)
  ∧ _encode_field keccak to_bytes abi_encode int_of_str Sample.mail_types
      "to" "Person" (VDict [("name", VStr "Bob")])
    = (fun bs => ("bytes32", VBytes (keccak bs)))
        <$> abi_encode ["bytes32"; "bytes32"]
              [VBytes (keccak (String.list_byte_of_string "Person(string name)"));
               VBytes (keccak (String.list_byte_of_string "Bob"))]
  ∧ encode_data keccak to_bytes abi_encode int_of_str Sample.mail_types "Mail"
      (VDict Sample.mail_null)
    = abi_encode ["bytes32"; "uint256"; "bytes32"; "bytes32"]
        [VBytes (keccak (String.list_byte_of_string
                           "Mail(uint256 n,Person to,string contents)Person(string name)"));
         VInt 5; VStr zero_hex; VBytes (keccak (String.list_byte_of_string "hi"))]
  ∧ is_ok (encode_data Sample.keccak Sample.to_bytes Sample.abi_encode_bytes
             Sample.int_of_str Sample.mail_types "Mail" (VDict Sample.mail_full)) = true
  ∧ encode_data Sample.keccak Sample.to_bytes Sample.abi_encode_bytes Sample.int_of_str
      Sample.mail_types "Mail" (VDict Sample.mail_null)
    = Raise (TypeError "bytes32").
Proof.
  split_and!.
  - intros types name typ Htyp. by apply encode_field_null_composite.
  - reflexivity.
  - discriminate.
  - rewrite _encode_field_unfold. unfold encode_field_with.
    rewrite bool_decide_eq_true_2 by (apply elem_of_dom; by eexists).
    rewrite encode_data_unfold.
    transitivity
      (abi_encode ["bytes32"; "bytes32"]
         [VBytes (keccak (String.list_byte_of_string "Person(string name)"));
          VBytes (keccak (String.list_byte_of_string "Bob"))]
       ≫= fun bs => Ok ("bytes32", VBytes (keccak bs))); [reflexivity|].
    by destruct (abi_encode _ _).
  - rewrite encode_data_unfold. reflexivity.
  - vm_compute. reflexivity.
  - vm_compute. reflexivity.
Qed.

(** ** The payload assembler *)

Section payload_assembler.
Context (keccak : list byte -> list byte).
Context (to_bytes : pyobj -> result (list byte)).
Context (abi_encode : list string -> list pyobj -> result (list byte)).
Context (int_of_str : string -> result Z).

Local Abbreviation struct_hash := (hash_struct keccak to_bytes abi_encode int_of_str).

Lemma hash_struct_length (types : TypeSet) (primary_type : string) (data : pyobj)
    (h : list byte) :
  (∀ bs, length (keccak bs) = 32) ->
  struct_hash types primary_type data = Ok h -> length h = 32.
Proof.
  intros Hlen. unfold hash_struct.
  destruct (encode_data _ _ _ _ _ _ _) as [bs|e]; cbn; [|done]. by intros [= <-].
Qed.

(** C5: for a typed data whose domain (and, when the primary type is
    not [EIP712Domain], whose message) has a struct hash, the segments
    are the two bytes 0x19 0x01, then the 32-byte struct hash of the
    domain against [EIP712Domain], and, only when the primary type is
    not [EIP712Domain], the 32-byte struct hash of the message against
    the primary type: two segments or three. *)
Theorem eip712_encode_segments (typed_data : TypedData) (hd : list byte) :
  (∀ bs, length (keccak bs) = 32) ->
  struct_hash (td_types typed_data) "EIP712Domain" (td_domain typed_data) = Ok hd ->
  (td_primaryType typed_data ≠ "EIP712Domain" ->
   is_ok (struct_hash (td_types typed_data) (td_primaryType typed_data)
            (td_message typed_data)) = true) ->
  ∃ parts,
    eip712_encode keccak to_bytes abi_encode int_of_str typed_data = Ok parts
    ∧ parts !! 0%nat = Some [x19; x01]
    ∧ parts !! 1%nat = Some hd
    ∧ length hd = 32
    ∧ (td_primaryType typed_data = "EIP712Domain" -> parts = [[x19; x01]; hd])
    ∧ (td_primaryType typed_data ≠ "EIP712Domain" ->
       ∃ hm, struct_hash (td_types typed_data) (td_primaryType typed_data)
               (td_message typed_data) = Ok hm
             ∧ length hm = 32
             ∧ parts = [[x19; x01]; hd; hm]).
Proof.
  intros Hlen Hd Hm. unfold eip712_encode. rewrite Hd. cbn [mbind result_bind].
  case_bool_decide as Hpt.
  - specialize (Hm Hpt).
    destruct (struct_hash _ _ (td_message typed_data)) as [hm|e] eqn:Hhm; [|done].
    cbn. eexists. split_and!; try done.
    + by eapply hash_struct_length.
    + intros _. exists hm. split_and!; [done| |done]. by eapply hash_struct_length.
  - eexists. split_and!; try done.
    by eapply hash_struct_length.
Qed.
End payload_assembler.

(** ** The signer *)

Lemma little_endian_length (length : nat) (n : N) : List.length (little_endian length n) = length.
Proof. revert n. induction length as [|k IH]; intros n; cbn; [done|]. by rewrite IH. Qed.

Lemma big_endian_reverse (bs : list byte) :
  big_endian_to_int bs = little_endian_to_int (reverse bs).
Proof.
  unfold big_endian_to_int, little_endian_to_int.
  rewrite <- (reverse_involutive bs) at 1. generalize (reverse bs) as l. intros l.
  induction l as [|b l IH]; [done|].
  rewrite reverse_cons, foldl_app. cbn. rewrite IH. lia.
Qed.

Lemma byte_to_N_lt (b : byte) : (Byte.to_N b < 256)%N.
Proof. pose proof (Byte.to_N_bounded b). lia. Qed.

Lemma little_endian_to_int_lt (bs : list byte) :
  (little_endian_to_int bs < 256 ^ N.of_nat (length bs))%N.
Proof.
  induction bs as [|b bs IH]; [cbn; lia|].
  cbn [length little_endian_to_int foldr]. fold (little_endian_to_int bs).
  rewrite Nat2N.inj_succ, N.pow_succ_r by lia.
  pose proof (byte_to_N_lt b). lia.
Qed.

Lemma digit_256_mod (a x : N) : (a < 256)%N -> ((a + 256 * x) mod 256 = a)%N.
Proof. intros Ha. by rewrite (N.mul_comm 256), N.Div0.mod_add, N.mod_small. Qed.

Lemma digit_256_div (a x : N) : (a < 256)%N -> ((a + 256 * x) / 256 = x)%N.
Proof. intros Ha. rewrite (N.mul_comm 256), N.div_add, N.div_small by lia. lia. Qed.

Lemma little_endian_of_int (bs : list byte) :
  little_endian (length bs) (little_endian_to_int bs) = bs.
Proof.
  induction bs as [|b bs IH]; [done|].
  cbn [length little_endian little_endian_to_int foldr]. fold (little_endian_to_int bs).
  pose proof (byte_to_N_lt b) as Hb. unfold byte_of_N.
  by rewrite digit_256_mod, digit_256_div, Byte.of_to_N, IH.
Qed.

(** [int.to_bytes] undoes [big_endian_to_int] at the length of the input. *)
Lemma int_to_bytes_big_endian (bs : list byte) :
  int_to_bytes (big_endian_to_int bs) (length bs) = Ok bs.
Proof.
  unfold int_to_bytes. rewrite big_endian_reverse.
  pose proof (little_endian_to_int_lt (reverse bs)) as Hlt.
  rewrite length_reverse in Hlt. apply N.ltb_lt in Hlt. rewrite Hlt.
  rewrite <- (length_reverse bs) at 1.
  by rewrite little_endian_of_int, reverse_involutive.
Qed.

Lemma hex_length (bs : list byte) : String.length (hex bs) = 2 * length bs.
Proof. induction bs as [|b bs IH]; [done|]. cbn. rewrite IH. lia. Qed.

Section signer.
Context (keccak : list byte -> list byte).
Context {PrivateKey : Type}.
Context (from_hex : string -> result PrivateKey).
Context (sign_recoverable :
           PrivateKey -> list byte -> (list byte -> list byte) -> result (list byte)).

Lemma int_to_bytes_word (bs : list byte) :
  length bs = 32 -> int_to_bytes (big_endian_to_int bs) 32 = Ok bs.
Proof. intros <-. apply int_to_bytes_big_endian. Qed.

Lemma hex_0x_length (bs : list byte) : String.length ("0x" +:+ hex bs) = 2 + 2 * length bs.
Proof.
  change ("0x" +:+ hex bs) with (String "0" (String "x" (hex bs))).
  cbn [String.length]. by rewrite hex_length.
Qed.

(** C9: when the key is accepted and the signer returns 65 bytes, [r]
    (32 bytes), [s] (32 bytes) and a recovery id 0 or 1, the result is
    the text [0x] followed by the hex digits of [r], of [s] and of one
    last byte, the recovery id plus 27 (27 or 28): 132 characters. A
    list or tuple of segments is signed as their concatenation. *)
Theorem eip712_signature_format (payload : payload_arg) (private_key : key_arg)
    (pk : PrivateKey) (signature : list byte) (recid : byte) :
  from_hex (private_key_hex private_key) = Ok pk ->
  sign_recoverable pk (payload_bytes payload) keccak = Ok signature ->
  length signature = 65 ->
  signature !! 64%nat = Some recid ->
  recid = x00 ∨ recid = x01 ->
  ∃ (v : byte) (text : string),
    eip712_signature keccak from_hex sign_recoverable payload private_key = Ok text
    ∧ text = "0x" +:+ hex (take 32 signature ++ take 32 (drop 32 signature) ++ [v])
    ∧ String.length text = 132
    ∧ Byte.to_N v = (Byte.to_N recid + 27)%N
    ∧ (v = x1b ∨ v = x1c)
    ∧ (∀ segments, payload = PayloadSeq segments ->
         payload_bytes payload = concat segments).
Proof.
  intros Hkey Hsign Hlen Hrecid Hid.
  assert (length (take 32 signature) = 32) as Hr by (rewrite length_take; lia).
  assert (length (take 32 (drop 32 signature)) = 32) as Hs
    by (rewrite length_take, length_drop; lia).
  exists (byte_of_N (Byte.to_N recid + 27)). eexists.
  split_and!.
  - unfold eip712_signature. rewrite Hkey. cbn [mbind result_bind].
    rewrite Hsign. cbn [mbind result_bind]. rewrite Hrecid. cbn [mbind result_bind].
    rewrite !int_to_bytes_word by done. cbn [mbind result_bind].
    destruct Hid as [-> | ->]; reflexivity.
  - done.
  - rewrite hex_0x_length, !length_app, Hr, Hs. done.
  - destruct Hid as [-> | ->]; reflexivity.
  - destruct Hid as [-> | ->]; [by left|by right].
  - by intros segments ->.
Qed.
End signer.

(** * The properties at the sample *)

Lemma sample_keccak_length (bs : list byte) : length (Sample.keccak bs) = 32.
Proof. unfold Sample.keccak. by rewrite length_reverse, little_endian_length. Qed.

(** The canonical string of [Mailbox] in the TypeSet of example.py. *)
Lemma encode_type_canonical_witness :
  let fields := [Field "owner" "address"; Field "messages" "Message[]"] in
  Sample.types !! "Mailbox" = Some fields
  ∧ ((fields ≠ [] -> ∃ text, encode_type Sample.types "Mailbox" = Ok text)
     ∧ ∀ text,
         encode_type Sample.types "Mailbox" = Ok text ->
         ∃ deps,
           text = type_signature "Mailbox" fields
                  +:+ concat_str ((fun d => type_signature d (default [] (Sample.types !! d)))
                                    <$> deps)
           ∧ StronglySorted String.le deps
           ∧ NoDup deps
           ∧ (∀ d, d ∈ deps <->
                   d ≠ "Mailbox"
                   ∧ composite Sample.types (re_split_W_0 "Mailbox")
                   ∧ rtc (depends Sample.types) (re_split_W_0 "Mailbox") d)
           ∧ (re_split_W_0 "Mailbox" = "Mailbox" ->
              ∀ d, d ∈ deps <-> d ≠ "Mailbox" ∧ rtc (depends Sample.types) "Mailbox" d)).
Proof.
  cbv zeta. split; [reflexivity|].
  apply (encode_type_canonical Sample.types "Mailbox"
           [Field "owner" "address"; Field "messages" "Message[]"]).
  reflexivity.
Defined.

(** A [Mail] whose nested record [to] is [None]. *)
Lemma encode_data_null_nested_record_witness :
  let member := encode_member Sample.int_of_str
                  (_encode_field Sample.keccak Sample.to_bytes Sample.abi_encode
                     Sample.int_of_str Sample.mail_types) (VDict Sample.mail_null) in
  let mpre := [("uint256", VInt 5)] in
  let mpost := [("bytes32", VBytes (Sample.keccak (String.list_byte_of_string "hi")))] in
  Sample.mail_types !! "Mail"
  = Some ([Field "n" "uint256"] ++ Field "to" "Person" :: [Field "contents" "string"])
  ∧ "Person" ∈ dom Sample.mail_types
  ∧ dict_get Sample.mail_null "to" = Some VNone
  ∧ mapM member [Field "n" "uint256"] = Ok mpre
  ∧ mapM member [Field "contents" "string"] = Ok mpost
  ∧ (_encode_field Sample.keccak Sample.to_bytes Sample.abi_encode Sample.int_of_str
       Sample.mail_types "to" "Person" VNone = Ok ("bytes32", VStr zero_hex)
     ∧ zero_hex = "0x" +:+ hex (replicate 32 x00)
     ∧ ∃ h, hash_type Sample.keccak Sample.mail_types "Mail" = Ok h
         ∧ encode_data Sample.keccak Sample.to_bytes Sample.abi_encode Sample.int_of_str
             Sample.mail_types "Mail" (VDict Sample.mail_null)
           = Sample.abi_encode ("bytes32" :: mpre.*1 ++ "bytes32" :: mpost.*1)
                               (VBytes h :: mpre.*2 ++ VStr zero_hex :: mpost.*2)).
Proof.
  assert ("Person" ∈ dom Sample.mail_types) as Hin by (apply elem_of_dom; by eexists).
  cbv zeta. split; [reflexivity|]. split; [exact Hin|].
  split; [reflexivity|]. split; [reflexivity|]. split; [reflexivity|].
  apply (encode_data_null_nested_record Sample.keccak Sample.to_bytes Sample.abi_encode
           Sample.int_of_str Sample.mail_types "Mail" Sample.mail_null
           [Field "n" "uint256"] [Field "contents" "string"] (Field "to" "Person"));
    [reflexivity|exact Hin|reflexivity|reflexivity|reflexivity].
Defined.

(** A [Mail] without the key [to]. *)
Lemma encode_data_absent_key_witness :
  let member := encode_member Sample.int_of_str
                  (_encode_field Sample.keccak Sample.to_bytes Sample.abi_encode
                     Sample.int_of_str Sample.mail_types) in
  let data_of := encode_data Sample.keccak Sample.to_bytes Sample.abi_encode
                   Sample.int_of_str Sample.mail_types in
  Sample.mail_types !! "Mail"
  = Some ([Field "n" "uint256"] ++ Field "to" "Person" :: [Field "contents" "string"])
  ∧ dict_get Sample.mail_absent "to" = None
  ∧ (member (VDict Sample.mail_absent) (Field "to" "Person") = Raise (KeyError "to")
     ∧ (∀ mpre, mapM (member (VDict Sample.mail_absent)) [Field "n" "uint256"] = Ok mpre ->
                data_of "Mail" (VDict Sample.mail_absent) = Raise (KeyError "to"))
     ∧ (∃ e, data_of "Mail" (VDict Sample.mail_absent) = Raise e)
     ∧ ("Person" ∈ dom Sample.mail_types ->
        ∀ d', dict_get d' "to" = Some VNone ->
              member (VDict d') (Field "to" "Person") = Ok ("bytes32", VStr zero_hex))).
Proof.
  cbv zeta. split; [reflexivity|]. split; [reflexivity|].
  apply (encode_data_absent_key Sample.keccak Sample.to_bytes Sample.abi_encode
           Sample.int_of_str Sample.mail_types "Mail" Sample.mail_absent
           [Field "n" "uint256"] [Field "contents" "string"] (Field "to" "Person"));
    reflexivity.
Defined.

(** The field [messages] of example.py: the first message does not
    count. *)
Lemma encode_field_array_last_only_witness :
  let field_of := _encode_field Sample.keccak Sample.to_bytes Sample.abi_encode
                    Sample.int_of_str Sample.types in
  let ps := ok_or [] (mapM (field_of "messages" "Message") [Sample.msg1]) in
  let ps' := ok_or [] (mapM (field_of "messages" "Message") [Sample.msg2]) in
  let p := ok_or ("", VNone) (field_of "messages" "Message" Sample.msg2) in
  ("Message[]" ∉ dom Sample.types)
  ∧ endswith_bracket "Message[]" = true
  ∧ drop_last2 "Message[]" ∈ dom Sample.types
  ∧ mapM (field_of "messages" (drop_last2 "Message[]")) [Sample.msg1] = Ok ps
  ∧ mapM (field_of "messages" (drop_last2 "Message[]")) [Sample.msg2] = Ok ps'
  ∧ field_of "messages" (drop_last2 "Message[]") Sample.msg2 = Ok p
  ∧ (field_of "messages" "Message[]" (VList ([Sample.msg1] ++ [Sample.msg2]))
     = (bs ← Sample.abi_encode ["bytes32"] [p.2];
        Ok ("bytes32", VBytes (Sample.keccak bs)))
     ∧ field_of "messages" "Message[]" (VList ([Sample.msg1] ++ [Sample.msg2]))
       = field_of "messages" "Message[]" (VList ([Sample.msg2] ++ [Sample.msg2]))).
Proof.
  assert ("Message[]" ∉ dom Sample.types) as Hout by (by apply not_elem_of_dom).
  assert (drop_last2 "Message[]" ∈ dom Sample.types) as Hin
    by (apply elem_of_dom; by eexists).
  cbv zeta. split; [exact Hout|]. split; [reflexivity|]. split; [exact Hin|].
  split; [vm_compute; reflexivity|]. split; [vm_compute; reflexivity|].
  split; [vm_compute; reflexivity|].
  eapply (encode_field_array_last_only Sample.keccak Sample.to_bytes Sample.abi_encode
            Sample.int_of_str Sample.types "messages" "Message[]"
            [Sample.msg1] [Sample.msg2] Sample.msg2);
    [exact Hout|reflexivity|exact Hin|vm_compute; reflexivity..].
Defined.

(** The field [messages] declared as [Message[3]]. *)
Lemma encode_field_fixed_size_array_witness :
  let field_of := _encode_field Sample.keccak Sample.to_bytes Sample.abi_encode
                    Sample.int_of_str Sample.types in
  ("Message[3]" ∉ dom Sample.types)
  ∧ endswith_bracket "Message[3]" = true
  ∧ (drop_last2 "Message[3]" ∉ dom Sample.types)
  ∧ endswith_bracket (drop_last2 "Message[3]") = false
  ∧ drop_last2 "Message[3]" ≠ "bytes"
  ∧ drop_last2 "Message[3]" ≠ "string"
  ∧ Forall (fun v => v ≠ VNone) ([Sample.msg1; Sample.msg1] ++ [Sample.msg2])
  ∧ (drop_last2 "Message[3]" = "Message["
     ∧ field_of "messages" "Message[3]" (VList ([Sample.msg1; Sample.msg1] ++ [Sample.msg2]))
       = (bs ← Sample.abi_encode [drop_last2 "Message[3]"] [Sample.msg2];
          Ok ("bytes32", VBytes (Sample.keccak bs)))).
Proof.
  assert ("Message[3]" ∉ dom Sample.types) as Hout by (by apply not_elem_of_dom).
  assert (drop_last2 "Message[3]" ∉ dom Sample.types) as Hout'
    by (by apply not_elem_of_dom).
  assert (Forall (fun v => v ≠ VNone) ([Sample.msg1; Sample.msg1] ++ [Sample.msg2])) as Hall
    by (repeat constructor; discriminate).
  cbv zeta. split; [exact Hout|]. split; [reflexivity|]. split; [exact Hout'|].
  split; [reflexivity|]. split; [discriminate|]. split; [discriminate|].
  split; [exact Hall|].
  apply (encode_field_fixed_size_array Sample.keccak Sample.to_bytes Sample.abi_encode
           Sample.int_of_str Sample.types "messages" "Message[3]"
           [Sample.msg1; Sample.msg1] Sample.msg2);
    [exact Hout|reflexivity|exact Hout'|reflexivity|discriminate|discriminate|exact Hall].
Defined.

(** The payload of example.py: three segments. *)
Lemma eip712_encode_segments_witness :
  let struct_hash := hash_struct Sample.keccak Sample.to_bytes Sample.abi_encode
                       Sample.int_of_str in
  let hd := ok_or [] (struct_hash Sample.types "EIP712Domain" Sample.domain) in
  (∀ bs, length (Sample.keccak bs) = 32)
  ∧ struct_hash Sample.types "EIP712Domain" Sample.domain = Ok hd
  ∧ ("Mailbox" ≠ "EIP712Domain" ->
     is_ok (struct_hash Sample.types "Mailbox" Sample.mailbox) = true)
  ∧ ∃ parts,
      eip712_encode Sample.keccak Sample.to_bytes Sample.abi_encode Sample.int_of_str
        Sample.payload = Ok parts
      ∧ parts !! 0%nat = Some [x19; x01]
      ∧ parts !! 1%nat = Some hd
      ∧ length hd = 32
      ∧ ("Mailbox" = "EIP712Domain" -> parts = [[x19; x01]; hd])
      ∧ ("Mailbox" ≠ "EIP712Domain" ->
         ∃ hm, struct_hash Sample.types "Mailbox" Sample.mailbox = Ok hm
               ∧ length hm = 32
               ∧ parts = [[x19; x01]; hd; hm]).
Proof.
  cbv zeta. split; [exact sample_keccak_length|].
  split; [vm_compute; reflexivity|]. split; [intros _; vm_compute; reflexivity|].
  apply (eip712_encode_segments Sample.keccak Sample.to_bytes Sample.abi_encode
           Sample.int_of_str Sample.payload);
    [exact sample_keccak_length|vm_compute; reflexivity|intros _; vm_compute; reflexivity].
Defined.

(** A payload of two segments signed with the key of example.py. *)
Lemma eip712_signature_format_witness :
  let payload := PayloadSeq [[x19; x01]; [x00]] in
  let private_key := KeyStr Sample.PRIVATE_KEY in
  let pk := "8da4ef21b864d2cc526dbdb2a120bd2874c36c9d0a1fb7f8c63d7f7a8b41de8f" in
  let signature := ok_or [] (Sample.sign_recoverable pk [x19; x01; x00] Sample.keccak) in
  Sample.from_hex (private_key_hex private_key) = Ok pk
  ∧ Sample.sign_recoverable pk (payload_bytes payload) Sample.keccak = Ok signature
  ∧ length signature = 65
  ∧ signature !! 64%nat = Some x01
  ∧ (x01 = x00 ∨ x01 = x01)
  ∧ ∃ (v : byte) (text : string),
      eip712_signature Sample.keccak Sample.from_hex Sample.sign_recoverable
        payload private_key = Ok text
      ∧ text = "0x" +:+ hex (take 32 signature ++ take 32 (drop 32 signature) ++ [v])
      ∧ String.length text = 132
      ∧ Byte.to_N v = (Byte.to_N x01 + 27)%N
      ∧ (v = x1b ∨ v = x1c)
      ∧ (∀ segments, payload = PayloadSeq segments ->
           payload_bytes payload = concat segments).
Proof.
  cbv zeta. split; [reflexivity|]. split; [reflexivity|].
  split; [vm_compute; reflexivity|]. split; [vm_compute; reflexivity|].
  split; [by right|].
  apply (eip712_signature_format Sample.keccak Sample.from_hex Sample.sign_recoverable
           (PayloadSeq [[x19; x01]; [x00]]) (KeyStr Sample.PRIVATE_KEY)
           "8da4ef21b864d2cc526dbdb2a120bd2874c36c9d0a1fb7f8c63d7f7a8b41de8f");
    [reflexivity|reflexivity|vm_compute; reflexivity|vm_compute; reflexivity|by right].
Defined.


(** * Further properties *)

(** ** The type resolver with an accumulator *)

Section resolver_more.
Context (types : TypeSet).

(** X1: with a budget above the number of keys of the TypeSet, a call
    with a duplicate-free accumulator [results] returns: its result is
    [results] followed by new names, still without duplicates; the new
    names are composite and were not in [results]; a second call on the
    returned list adds nothing; and every budget above the number of keys
    gives that same result. *)
Theorem find_type_dependencies_from_accumulates (fuel : nat) (t : string)
    (results : list string) :
  NoDup results ->
  size types < fuel ->
  ∃ r new, find_type_dependencies_from types fuel t results = Some r
    ∧ r = results ++ new
    ∧ NoDup r
    ∧ (∀ x, x ∈ new -> composite types x ∧ x ∉ results)
    ∧ find_type_dependencies_from types fuel t r = Some r
    ∧ (∀ fuel', size types < fuel' ->
         find_type_dependencies_from types fuel' t results = Some r).
Proof.
  intros Hnd Hfuel.
  assert (∀ n, size types < n ->
               is_Some (find_type_dependencies_from types n t results)) as Hterm.
  { intros n Hn. apply find_type_dependencies_from_terminates.
    pose proof (pending_size types results). lia. }
  destruct (Hterm fuel Hfuel) as [r Hrun]. pose proof Hrun as Hspec.
  apply find_type_dependencies_from_spec in Hspec
    as (new & -> & Hnd' & Hin & Hall & _ & _).
  specialize (Hnd' Hnd). exists (results ++ new), new.
  split_and!; [done|done|done| | |].
  - intros x Hx. split; [by apply Hall|].
    apply NoDup_app in Hnd' as (_ & Hdisj & _). intros Hx'. by eapply Hdisj.
  - destruct fuel as [|fuel]; [lia|].
    rewrite find_type_dependencies_from_S.
    assert (re_split_W_0 t ∈ results ++ new ∨ ¬ composite types (re_split_W_0 t)) as Hguard.
    { destruct (decide (composite types (re_split_W_0 t))); [left; by apply Hin|by right]. }
    apply visit_guard in Hguard. by rewrite Hguard.
  - intros fuel' Hfuel'. destruct (Hterm fuel' Hfuel') as [r' Hrun'].
    rewrite Hrun'. f_equal.
    pose proof (find_type_dependencies_from_mono types fuel (fuel `max` fuel') t results
                  _ ltac:(lia) Hrun) as H1.
    pose proof (find_type_dependencies_from_mono types fuel' (fuel `max` fuel') t results
                  _ ltac:(lia) Hrun') as H2.
    congruence.
Qed.

Lemma re_split_W_0_word (s : string) : all_word s = true -> re_split_W_0 s = s.
Proof.
  induction s as [|c s IH]; [done|]. cbn. intros [Hc Hs]%andb_true_iff.
  by rewrite Hc, IH.
Qed.

Lemma re_split_W_0_suffix (base suffix : string) (c : ascii) :
  all_word base = true -> is_word_char c = false ->
  re_split_W_0 (base +:+ String c suffix) = base.
Proof.
  intros Hbase Hc. induction base as [|b base IH].
  - change ("" +:+ String c suffix) with (String c suffix). cbn. by rewrite Hc.
  - cbn in Hbase. apply andb_true_iff in Hbase as [Hb Hbase].
    rewrite string_app_cons. cbn. by rewrite Hb, IH.
Qed.

(** X2: a type string made of a word followed by any suffix that starts
    with a non-word character ([T[]], [T[3]], [T[][2]]) is resolved as
    the word itself. *)
Theorem find_type_dependencies_array_suffix (base suffix : string) (c : ascii) :
  all_word base = true ->
  is_word_char c = false ->
  find_type_dependencies types (base +:+ String c suffix) = find_type_dependencies types base
  ∧ ∀ fuel results,
      find_type_dependencies_from types fuel (base +:+ String c suffix) results
      = find_type_dependencies_from types fuel base results.
Proof.
  intros Hbase Hc.
  assert (∀ fuel results,
            find_type_dependencies_from types fuel (base +:+ String c suffix) results
            = find_type_dependencies_from types fuel base results) as Heq.
  { intros fuel results.
    rewrite <- (find_type_dependencies_from_stripped types fuel (base +:+ _)).
    by rewrite re_split_W_0_suffix. }
  split; [apply Heq|exact Heq].
Qed.
End resolver_more.

(** ** Declarations that are not referenced *)

Section unreferenced.
Context (types : TypeSet) (k : string) (fs : list field).

Lemma for_fields_agree (rec rec' : string -> list string -> option (list string))
    (fields : list field) :
  (∀ f, f ∈ fields -> ∀ results, rec' (field_type f) results = rec (field_type f) results) ->
  ∀ results, for_fields rec' fields results = for_fields rec fields results.
Proof.
  induction fields as [|f fields IH]; intros Hrec results; [done|]. cbn.
  rewrite Hrec by (by left). destruct (rec (field_type f) results); [|done].
  apply IH. intros g Hg. apply Hrec. by right.
Qed.

Lemma has_fields_insert_ne (name : string) :
  name ≠ k -> has_fields (<[k:=fs]> types) name = has_fields types name.
Proof. intros Hne. unfold has_fields. by rewrite lookup_insert_ne. Qed.

Lemma find_type_dependencies_from_insert (fuel : nat) :
  (∀ x fields f, types !! x = Some fields -> f ∈ fields -> re_split_W_0 (field_type f) ≠ k) ->
  ∀ t results,
    re_split_W_0 t ≠ k ->
    find_type_dependencies_from (<[k:=fs]> types) fuel t results
    = find_type_dependencies_from types fuel t results.
Proof.
  intros Href. induction fuel as [|fuel IH]; intros t results Ht; [done|].
  rewrite !find_type_dependencies_from_S, has_fields_insert_ne, lookup_insert_ne by done.
  destruct (bool_decide _ || negb _); [done|].
  apply for_fields_agree. intros f Hf results'. apply IH.
  destruct (types !! re_split_W_0 t) as [fields|] eqn:Hlk; [|by apply elem_of_nil in Hf].
  by eapply Href.
Qed.

(** X3: a declaration added under a name that no field refers to, and
    that is not the primary type, changes neither the list of
    dependencies nor the canonical string nor the type hash. *)
Theorem encode_type_ignores_unreferenced (primary_type : string) :
  types !! k = None ->
  k ≠ primary_type ->
  k ≠ re_split_W_0 primary_type ->
  (∀ x fields f, types !! x = Some fields -> f ∈ fields -> re_split_W_0 (field_type f) ≠ k) ->
  find_type_dependencies (<[k:=fs]> types) primary_type
  = find_type_dependencies types primary_type
  ∧ encode_type (<[k:=fs]> types) primary_type = encode_type types primary_type
  ∧ ∀ keccak, hash_type keccak (<[k:=fs]> types) primary_type
              = hash_type keccak types primary_type.
Proof.
  intros Hk Hpt Hpt' Href.
  assert (find_type_dependencies (<[k:=fs]> types) primary_type
          = find_type_dependencies types primary_type) as Hdeps.
  { unfold find_type_dependencies at 1.
    rewrite find_type_dependencies_from_insert by done.
    apply find_type_dependencies_from_fuel. rewrite map_size_insert_None by done. lia. }
  assert (encode_type (<[k:=fs]> types) primary_type = encode_type types primary_type) as Htext.
  { destruct (find_type_dependencies_reachable types primary_type)
      as (r & Hr & _ & Hcomp & _).
    unfold encode_type. rewrite Hdeps, Hr.
    assert (∀ d, d ∈ primary_type :: sorted (filter (fun d => d ≠ primary_type) r) -> d ≠ k)
      as Hne.
    { intros d [->|Hd]%elem_of_cons; [done|].
      apply sorted_dependencies in Hd as [_ Hd]. apply Hcomp in Hd.
      apply has_fields_lookup in Hd as (f & fields & Hlk). congruence. }
    generalize "" as out. revert Hne.
    generalize (primary_type :: sorted (filter (fun d => d ≠ primary_type) r)) as deps.
    induction deps as [|d deps IH]; intros Hne out; [done|]. cbn.
    assert (encode_type_step (<[k:=fs]> types) out d = encode_type_step types out d) as ->.
    { unfold encode_type_step, types_getitem.
      by rewrite lookup_insert_ne by (apply not_eq_sym, Hne; by left). }
    destruct (encode_type_step types out d) as [out'|e]; [|done]. cbn.
    apply IH. intros d' Hd'. apply Hne. by right. }
  split_and!; [done|done|]. intros keccak. unfold hash_type. by rewrite Htext.
Qed.
End unreferenced.

(** ** The struct encoder: what is read, what is handed on *)

Lemma mapM_result_ext_in {A B : Type} (f g : A -> result B) (l : list A) :
  (∀ x, x ∈ l -> f x = g x) -> mapM f l = mapM g l.
Proof.
  induction l as [|x l IH]; intros Hfg; [done|].
  rewrite !mapM_result_cons, Hfg by (by left).
  rewrite IH; [done|]. intros y Hy. apply Hfg. by right.
Qed.

Lemma mapM_result_Forall2 {A B : Type} (P : A -> B -> Prop) (f : A -> result B) (l : list A) :
  (∀ x y, x ∈ l -> f x = Ok y -> P x y) ->
  ∀ k, mapM f l = Ok k -> Forall2 P l k.
Proof.
  induction l as [|x l IH]; intros HP k; cbn.
  - intros [= <-]. constructor.
  - destruct (f x) as [y|e] eqn:Hy; cbn; [|done].
    destruct (mapM f l) as [k'|e]; cbn; [|done]. intros [= <-].
    constructor; [apply HP; [by left|done]|].
    apply IH; [|done]. intros x' y' Hx'. apply HP. by right.
Qed.

Section struct_encoder_more.
Context (keccak : list byte -> list byte).
Context (to_bytes : pyobj -> result (list byte)).
Context (abi_encode : list string -> list pyobj -> result (list byte)).
Context (int_of_str : string -> result Z).
Context (types : TypeSet).

Local Abbreviation field_of := (_encode_field keccak to_bytes abi_encode int_of_str types).
Local Abbreviation data_of := (encode_data keccak to_bytes abi_encode int_of_str types).
Local Abbreviation member_of := (encode_member int_of_str field_of).
Local Abbreviation struct_hash := (hash_struct keccak to_bytes abi_encode int_of_str types).

Lemma encode_member_dict (d : list (string * pyobj)) (f : field) :
  member_of (VDict d) f
  = match dict_get d (field_name f) with
    | Some v =>
        tv ← field_of (field_name f) (field_type f) v;
        val ← (match tv.2 with
               | VStr s => if is_int_type tv.1 then VInt <$> int_of_str s else Ok tv.2
               | _ => Ok tv.2
               end);
        Ok (tv.1, val)
    | None => Raise (KeyError (field_name f))
    end.
Proof.
  unfold encode_member, getitem_with. rewrite dict_get_with_get.
  by destruct (dict_get d (field_name f)).
Qed.

(** X4: [encode_data] reads the record at the names of the declared
    fields only, in the order of the declaration: two records that agree
    on those names (whatever the order of their keys, whatever other
    keys they hold) have the same encoding, or fail alike. *)
Theorem encode_data_reads_declared_fields (primary_type : string)
    (d d' : list (string * pyobj)) (fields : list field) :
  types !! primary_type = Some fields ->
  (∀ f, f ∈ fields -> dict_get d (field_name f) = dict_get d' (field_name f)) ->
  data_of primary_type (VDict d) = data_of primary_type (VDict d')
  ∧ struct_hash primary_type (VDict d) = struct_hash primary_type (VDict d').
Proof.
  intros Hlk Hagree.
  assert (data_of primary_type (VDict d) = data_of primary_type (VDict d')) as Heq.
  { rewrite !encode_data_unfold.
    destruct (hash_type keccak types primary_type) as [h|e]; [|done].
    unfold types_getitem. rewrite Hlk. cbn [mbind result_bind].
    rewrite (mapM_result_ext_in (member_of (VDict d)) (member_of (VDict d'))); [done|].
    intros f Hf. by rewrite !encode_member_dict, Hagree. }
  split; [done|]. unfold hash_struct. by rewrite Heq.
Qed.

(** The two outcomes of [_encode_field]: an entry of type [bytes32], or
    the declared type with the value as it is. *)
Lemma encode_field_with_entry (encode_struct : string -> result (list byte))
    (encode_items : string -> result (list (string * pyobj)))
    (name typ : string) (value : pyobj) (p : string * pyobj) :
  encode_field_with keccak to_bytes abi_encode types encode_struct encode_items name typ value
  = Ok p ->
  (p.1 = "bytes32" ∧ (p.2 = VStr zero_hex ∨ ∃ h, p.2 = VBytes h))
  ∨ (p = (typ, value) ∧ value ≠ VNone ∧ (typ ∉ dom types) ∧ typ ≠ "bytes" ∧ typ ≠ "string"
     ∧ endswith_bracket typ = false).
Proof.
  unfold encode_field_with. case_bool_decide as Hin.
  - destruct value; try (intros [= <-]; left; by eauto);
      (destruct (encode_struct typ) as [out|e]; cbn; [|done];
       intros [= <-]; left; by eauto).
  - assert (value = VNone ∨ value ≠ VNone) as [->|Hv]
      by (destruct value; [by left|by right..]); [done|].
    destruct (String.eqb_spec typ "bytes") as [->|Hb].
    { destruct value; try done;
        (destruct (keccak_primitive _ _ _) as [h|e]; cbn; [|done];
         intros [= <-]; left; by eauto). }
    destruct (String.eqb_spec typ "string") as [->|Hs].
    { destruct value; try done;
        (destruct (str_encode _) as [out|e]; cbn; [|done];
         intros [= <-]; left; by eauto). }
    destruct (endswith_bracket typ) eqn:Hend.
    { destruct value; try done;
        (destruct (encode_items _) as [pairs|e]; cbn; [|done];
         destruct (abi_encode _ _) as [out|e]; cbn; [|done];
         intros [= <-]; left; by eauto). }
    destruct value; try done; intros [= <-]; right; by split_and!.
Qed.

Lemma encode_member_entry (data : pyobj) (f : field) (m : string * pyobj) :
  member_of data f = Ok m ->
  m.2 ≠ VNone
  ∧ (m.1 = "bytes32"
     ∨ (m.1 = field_type f ∧ (field_type f ∉ dom types) ∧ field_type f ≠ "bytes"
        ∧ field_type f ≠ "string" ∧ endswith_bracket (field_type f) = false)).
Proof.
  unfold encode_member, getitem_with.
  destruct data as [| | | | | |d]; try done.
  rewrite dict_get_with_get. destruct (dict_get d (field_name f)) as [v|]; [|done].
  cbn [fmap option_fmap option_map].
  destruct (field_of (field_name f) (field_type f) v) as [tv|e] eqn:Htv; [|done].
  cbn [mbind result_bind]. rewrite _encode_field_unfold in Htv.
  apply encode_field_with_entry in Htv.
  assert (tv.2 ≠ VNone) as Hv.
  { destruct Htv as [[_ [->|[h ->]]]|(-> & Hv & _)]; done. }
  assert (tv.1 = "bytes32"
          ∨ (tv.1 = field_type f ∧ (field_type f ∉ dom types) ∧ field_type f ≠ "bytes"
             ∧ field_type f ≠ "string" ∧ endswith_bracket (field_type f) = false)) as Ht.
  { destruct Htv as [[-> _]|(-> & _ & ?)]; [by left|by right]. }
  destruct tv as [t v']. cbn in *.
  destruct v'; try (intros [= <-]; by split);
    (destruct (is_int_type t); [|intros [= <-]; by split];
     destruct (int_of_str _) as [n|e]; cbn; [|done]; intros [= <-]; by split).
Qed.

(** X5: when [encode_data] returns, the ABI encoder was given the type
    hash as a first [bytes32] entry and then one entry per declared
    field, in the order of the declaration; the type of an entry is
    [bytes32] or the declared type of a field that is no composite type,
    no array, not [bytes] and not [string]; no value is [None]. *)
Theorem encode_data_abi_input (primary_type : string) (data : pyobj) (out : list byte) :
  data_of primary_type data = Ok out ->
  ∃ text fields members,
    encode_type types primary_type = Ok text
    ∧ types !! primary_type = Some fields
    ∧ mapM (member_of data) fields = Ok members
    ∧ abi_encode ("bytes32" :: members.*1)
                 (VBytes (keccak (String.list_byte_of_string text)) :: members.*2) = Ok out
    ∧ Forall2 (fun f m =>
                 m.2 ≠ VNone
                 ∧ (m.1 = "bytes32"
                    ∨ (m.1 = field_type f ∧ (field_type f ∉ dom types)
                       ∧ field_type f ≠ "bytes" ∧ field_type f ≠ "string"
                       ∧ endswith_bracket (field_type f) = false)))
              fields members.
Proof.
  rewrite encode_data_unfold. unfold hash_type, types_getitem.
  destruct (encode_type types primary_type) as [text|e]; [|done]. cbn [mbind result_bind].
  destruct (types !! primary_type) as [fields|]; [|done]. cbn [mbind result_bind].
  destruct (mapM (member_of data) fields) as [members|e] eqn:Hm; [|done].
  cbn [mbind result_bind]. intros Hout.
  exists text, fields, members. split_and!; try done.
  eapply mapM_result_Forall2; [|exact Hm].
  intros f m _ Hfm. by apply (encode_member_entry data).
Qed.

(** X6: a primary type that is no key of the TypeSet is a lookup error
    naming it, and one with an empty field list is the exception of
    [encode_type], before the record is looked at: whatever the data. *)
Theorem encode_data_undefined_primary_type (primary_type : string) (data : pyobj) :
  (types !! primary_type = None ->
     data_of primary_type data = Raise (KeyError primary_type)
     ∧ struct_hash primary_type data = Raise (KeyError primary_type))
  ∧ (types !! primary_type = Some [] ->
       data_of primary_type data
       = Raise (Exception "No type definition specified: <class 'type'>")
       ∧ struct_hash primary_type data
         = Raise (Exception "No type definition specified: <class 'type'>")).
Proof.
  split; intros Hlk; unfold hash_struct; rewrite encode_data_unfold; unfold hash_type.
  - by rewrite encode_type_undefined.
  - by rewrite encode_type_empty.
Qed.

(** X7: for a field of composite type and a value other than [None],
    the entry is the struct hash of the value against that type, and a
    failure of that encoding is the failure of the field; a value that
    is no dict (a number, a text, a list) fails at the first
    subscript. *)
Theorem encode_field_nested_struct (name typ : string) (value : pyobj)
    (f : field) (fields : list field) :
  types !! typ = Some (f :: fields) ->
  value ≠ VNone ->
  field_of name typ value = (fun h => ("bytes32", VBytes h)) <$> struct_hash typ value
  ∧ ((∀ d, value ≠ VDict d) -> field_of name typ value = Raise (TypeError "subscript")).
Proof.
  intros Hlk Hv.
  assert (typ ∈ dom types) as Hin by (apply elem_of_dom; by eexists).
  assert (field_of name typ value
          = (fun h => ("bytes32", VBytes h)) <$> struct_hash typ value) as Heq.
  { rewrite _encode_field_unfold. unfold encode_field_with, hash_struct.
    rewrite bool_decide_eq_true_2 by done.
    destruct value; try done; by destruct (data_of typ _). }
  split; [done|]. intros Hnd. rewrite Heq. unfold hash_struct.
  rewrite encode_data_unfold.
  destruct (hash_type_defined keccak types typ f fields Hlk) as [h ->].
  unfold types_getitem. rewrite Hlk. cbn [mbind result_bind].
  rewrite mapM_result_cons. unfold encode_member at 1, getitem_with.
  destruct value; try done. by destruct (Hnd items).
Qed.

(** *** Integers given as text *)

Lemma endswith_bracket_cons (c : ascii) (s : string) :
  s ≠ "" -> endswith_bracket (String c s) = endswith_bracket s.
Proof. by destruct s. Qed.

Lemma digits_then_end_no_bracket (seen : bool) (s : string) :
  digits_then_end seen s = true -> s = "" ∨ endswith_bracket s = false.
Proof.
  revert seen. induction s as [|c s IH]; intros seen; [by left|]. cbn [digits_then_end].
  destruct (is_digit c) eqn:Hc.
  - assert (Ascii.eqb c "]" = false) as Hb.
    { destruct (Ascii.eqb_spec c "]"); [by subst|done]. }
    intros [->|Hs]%IH; right; [done|].
    destruct s; [done|]. by rewrite endswith_bracket_cons.
  - intros [[_ Hnl%Ascii.eqb_eq]%andb_true_iff ->%bool_decide_eq_true]%andb_true_iff.
    right. by subst.
Qed.

Lemma is_int_type_inv (typ : string) :
  is_int_type typ = true ->
  ∃ s, (typ = "uint" +:+ s ∨ typ = "int" +:+ s) ∧ digits_then_end false s = true.
Proof.
  intros H.
  destruct typ as [|c1 t1]; [done|].
  destruct c1 as [[] [] [] [] [] [] [] []]; try (cbn in H; discriminate H);
    (destruct t1 as [|c2 t2]; [done|]);
    destruct c2 as [[] [] [] [] [] [] [] []]; try (cbn in H; discriminate H);
    (destruct t2 as [|c3 t3]; [done|]);
    destruct c3 as [[] [] [] [] [] [] [] []]; try (cbn in H; discriminate H).
  - destruct t3 as [|c4 t4]; [done|].
    destruct c4 as [[] [] [] [] [] [] [] []]; try (cbn in H; discriminate H).
    exists t4. split; [by left|exact H].
  - exists t3. split; [by right|exact H].
Qed.

Lemma is_int_type_scalar (typ : string) :
  is_int_type typ = true ->
  typ ≠ "bytes" ∧ typ ≠ "string" ∧ endswith_bracket typ = false.
Proof.
  intros H. split_and!; [by intros ->|by intros ->|].
  destruct (is_int_type_inv _ H) as (s & Htyp & Hs).
  destruct (digits_then_end_no_bracket _ _ Hs) as [->|Hend]; [done|].
  assert (s ≠ "") as Hne by (by intros ->).
  destruct Htyp as [-> | ->].
  - change ("uint" +:+ s) with (String "u" (String "i" (String "n" (String "t" s)))).
    by rewrite !endswith_bracket_cons.
  - change ("int" +:+ s) with (String "i" (String "n" (String "t" s))).
    by rewrite !endswith_bracket_cons.
Qed.

(** X8: for a field whose declared type is no key of the TypeSet and
    matches [^u?int(\d+)$], a value given as text is replaced by the
    integer the builtin [int] reads from it, and the failure of [int] is
    the failure of the field; an integer is handed on as it is. For a
    scalar type that does not match, a text stays a text. *)
Theorem encode_member_integer_text (d : list (string * pyobj)) (f : field) :
  field_type f ∉ dom types ->
  (is_int_type (field_type f) = true ->
     (∀ n, dict_get d (field_name f) = Some (VInt n) ->
           member_of (VDict d) f = Ok (field_type f, VInt n))
     ∧ (∀ s, dict_get d (field_name f) = Some (VStr s) ->
             (∀ n, int_of_str s = Ok n ->
                   member_of (VDict d) f = Ok (field_type f, VInt n))
             ∧ (∀ e, int_of_str s = Raise e -> member_of (VDict d) f = Raise e)))
  ∧ (is_int_type (field_type f) = false ->
     field_type f ≠ "bytes" ->
     field_type f ≠ "string" ->
     endswith_bracket (field_type f) = false ->
     ∀ s, dict_get d (field_name f) = Some (VStr s) ->
          member_of (VDict d) f = Ok (field_type f, VStr s)).
Proof.
  intros Hin. split.
  - intros Hint.
    destruct (is_int_type_scalar _ Hint) as (Hb%String.eqb_neq & Hs%String.eqb_neq & Hend).
    split.
    + intros n Hget. rewrite encode_member_dict, Hget.
      by rewrite encode_field_scalar.
    + intros s Hget. split.
      * intros n Hn. rewrite encode_member_dict, Hget.
        rewrite encode_field_scalar by done. cbn. by rewrite Hint, Hn.
      * intros e He. rewrite encode_member_dict, Hget.
        rewrite encode_field_scalar by done. cbn. by rewrite Hint, He.
  - intros Hint Hb%String.eqb_neq Hs%String.eqb_neq Hend s Hget.
    rewrite encode_member_dict, Hget.
    rewrite encode_field_scalar by done. cbn. by rewrite Hint.
Qed.

(** *** What an array hands to the ABI encoder *)

Lemma dict_set_keys {A : Type} (d : list (string * A)) (key : string) (v : A) :
  (dict_set d key v).*1 = if bool_decide (key ∈ d.*1) then d.*1 else d.*1 ++ [key].
Proof.
  induction d as [|[k v'] d IH]; [done|]. cbn.
  destruct (String.eqb_spec k key) as [->|Hne].
  - by rewrite bool_decide_eq_true_2 by left.
  - cbn. rewrite IH. case_bool_decide as Hin.
    + by rewrite bool_decide_eq_true_2 by (by right).
    + rewrite bool_decide_eq_false_2; [done|].
      intros [?|?]%elem_of_cons; [by subst|done].
Qed.

Lemma dict_of_pairs_keys {A : Type} (ps : list (string * A)) :
  NoDup (dict_of_pairs ps).*1
  ∧ (∀ key, key ∈ (dict_of_pairs ps).*1 <-> key ∈ ps.*1)
  ∧ length (dict_of_pairs ps) ≤ length ps.
Proof.
  induction ps as [|p ps (Hnd & Hkeys & Hlen)] using rev_ind.
  - split_and!; [constructor|done|done].
  - rewrite dict_of_pairs_snoc, fmap_app, length_app. cbn.
    assert (length (dict_set (dict_of_pairs ps) p.1 p.2)
            = length (dict_set (dict_of_pairs ps) p.1 p.2).*1) as -> by (by rewrite length_fmap).
    rewrite dict_set_keys. case_bool_decide as Hin.
    + split_and!; [done| |rewrite length_fmap; lia].
      intros key. rewrite elem_of_app, list_elem_of_singleton, Hkeys.
      split; [by left|]. intros [?| ->]; [done|]. by apply Hkeys.
    + split_and!.
      * apply NoDup_app. split_and!; [done| |apply NoDup_singleton].
        intros key Hkey ->%list_elem_of_singleton. done.
      * intros key. rewrite !elem_of_app, !list_elem_of_singleton, Hkeys. done.
      * rewrite length_app, length_fmap. cbn. lia.
Qed.

(** X9: of an array-typed field (no key of the TypeSet, value a list)
    the ABI encoder is given one value per distinct type among the
    encoded elements, never more than two ([bytes32] and the type
    without its last two characters), however long the list is; the
    entry of the field is the hash of that encoding. *)
Theorem encode_field_array_entries (name typ : string) (items : list pyobj)
    (out : string * pyobj) :
  typ ∉ dom types ->
  endswith_bracket typ = true ->
  field_of name typ (VList items) = Ok out ->
  ∃ pairs bs,
    mapM (field_of name (drop_last2 typ)) items = Ok pairs
    ∧ abi_encode (dict_of_pairs pairs).*1 (dict_of_pairs pairs).*2 = Ok bs
    ∧ out = ("bytes32", VBytes (keccak bs))
    ∧ NoDup (dict_of_pairs pairs).*1
    ∧ (∀ t, t ∈ (dict_of_pairs pairs).*1 -> t = "bytes32" ∨ t = drop_last2 typ)
    ∧ length (dict_of_pairs pairs) ≤ 2
    ∧ length (dict_of_pairs pairs) ≤ length items.
Proof.
  intros Hin Hend. rewrite encode_field_array by done.
  destruct (mapM (field_of name (drop_last2 typ)) items) as [pairs|e] eqn:Hpairs; [|done].
  cbn [mbind result_bind].
  destruct (abi_encode _ _) as [bs|e] eqn:Habi; [|done]. cbn. intros [= <-].
  destruct (dict_of_pairs_keys pairs) as (Hnd & Hkeys & Hlen).
  assert (∀ t, t ∈ (dict_of_pairs pairs).*1 -> t ∈ ["bytes32"; drop_last2 typ]) as Hsub.
  { intros t Ht%Hkeys. apply list_elem_of_fmap in Ht as (p & -> & Hp).
    assert (Forall2 (fun (v : pyobj) (p : string * pyobj) =>
                       p.1 = "bytes32" ∨ p.1 = drop_last2 typ) items pairs) as Hall.
    { eapply mapM_result_Forall2; [|exact Hpairs].
      intros v q _ Hq. rewrite _encode_field_unfold in Hq.
      apply encode_field_with_entry in Hq. destruct Hq as [[Hq _]|[Hq _]]; [by left|].
      right. by rewrite Hq. }
    apply Forall2_Forall_r with (Q := fun p => p.1 = "bytes32" ∨ p.1 = drop_last2 typ) in Hall.
    - rewrite Forall_forall in Hall. destruct (Hall p Hp) as [-> | ->].
      + by left.
      + right. by left.
    - apply Forall_true. done. }
  exists pairs, bs. split_and!; try done.
  - intros t Ht. apply Hsub in Ht.
    apply elem_of_cons in Ht as [->|Ht]; [by left|].
    apply list_elem_of_singleton in Ht. by right.
  - rewrite <- (length_fmap fst).
    apply (submseteq_length _ ["bytes32"; drop_last2 typ]).
    by apply NoDup_submseteq.
  - apply mapM_result_length in Hpairs. lia.
Qed.
End struct_encoder_more.

(** ** The payload assembler: failures and the joined payload *)

Section payload_more.
Context (keccak : list byte -> list byte).
Context (to_bytes : pyobj -> result (list byte)).
Context (abi_encode : list string -> list pyobj -> result (list byte)).
Context (int_of_str : string -> result Z).

Local Abbreviation struct_hash := (hash_struct keccak to_bytes abi_encode int_of_str).
Local Abbreviation encode := (eip712_encode keccak to_bytes abi_encode int_of_str).

(** X10: [eip712_encode] gives no partial result. A failure of the
    domain hash is the failure of the call, whatever the primary type
    and the message; so is a TypeSet without the key [EIP712Domain],
    a lookup error naming it. With the domain hashed, a failure of the
    message hash is the failure of the call. When the primary type is
    [EIP712Domain] the message is not looked at. *)
Theorem eip712_encode_failure (typed_data : TypedData) :
  (∀ e, struct_hash (td_types typed_data) "EIP712Domain" (td_domain typed_data) = Raise e ->
        encode typed_data = Raise e)
  ∧ (td_types typed_data !! "EIP712Domain" = None ->
     encode typed_data = Raise (KeyError "EIP712Domain"))
  ∧ (∀ h e,
       struct_hash (td_types typed_data) "EIP712Domain" (td_domain typed_data) = Ok h ->
       td_primaryType typed_data ≠ "EIP712Domain" ->
       struct_hash (td_types typed_data) (td_primaryType typed_data)
         (td_message typed_data) = Raise e ->
       encode typed_data = Raise e)
  ∧ (td_primaryType typed_data = "EIP712Domain" ->
     encode typed_data
     = (fun h => [[x19; x01]; h])
         <$> struct_hash (td_types typed_data) "EIP712Domain" (td_domain typed_data)).
Proof.
  split_and!.
  - intros e He. unfold eip712_encode. by rewrite He.
  - intros Hlk.
    assert (struct_hash (td_types typed_data) "EIP712Domain" (td_domain typed_data)
            = Raise (KeyError "EIP712Domain")) as He.
    { unfold hash_struct. rewrite encode_data_unfold. unfold hash_type.
      by rewrite encode_type_undefined by done. }
    unfold eip712_encode. by rewrite He.
  - intros h e Hd Hpt Hm. unfold eip712_encode. rewrite Hd. cbn [mbind result_bind].
    rewrite bool_decide_eq_true_2 by done. by rewrite Hm.
  - intros Hpt. unfold eip712_encode.
    destruct (struct_hash _ _ (td_domain typed_data)) as [h|e]; [|done].
    cbn [mbind result_bind]. rewrite bool_decide_eq_false_2; [done|]. by intros ?.
Qed.

(** X11: with a 32-byte hash function, the joined payload begins with
    the bytes 0x19 0x01 and has 34 bytes when the primary type is
    [EIP712Domain] and 66 bytes otherwise; the payload of example.py
    has 66. *)
Theorem joined_payload_length (typed_data : TypedData) (out : list byte) :
  (∀ bs, length (keccak bs) = 32) ->
  join_parts <$> encode typed_data = Ok out ->
  take 2 out = [x19; x01]
  ∧ length out = (if bool_decide (td_primaryType typed_data = "EIP712Domain")
                  then 34 else 66)
  ∧ (typed_data = Sample.payload ->
     get_eip712_payload keccak to_bytes abi_encode int_of_str = Ok out ∧ length out = 66).
Proof.
  intros Hlen Hout.
  assert (take 2 out = [x19; x01]
          ∧ length out = (if bool_decide (td_primaryType typed_data = "EIP712Domain")
                          then 34 else 66)) as [Hmagic Hsize].
  { unfold eip712_encode in Hout.
    destruct (struct_hash _ _ (td_domain typed_data)) as [hd|e] eqn:Hd; [|done].
    apply hash_struct_length in Hd; [|done]. cbn [mbind result_bind] in Hout.
    case_bool_decide as Hpt.
    - destruct (struct_hash _ _ (td_message typed_data)) as [hm|e] eqn:Hm; [|done].
      apply hash_struct_length in Hm; [|done]. cbn in Hout. injection Hout as <-.
      rewrite bool_decide_eq_false_2 by done.
      unfold join_parts. cbn. rewrite app_nil_r, length_app. split; [done|lia].
    - cbn in Hout. injection Hout as <-.
      rewrite bool_decide_eq_true_2 by (by destruct (decide (td_primaryType typed_data
                                                              = "EIP712Domain"))).
      unfold join_parts. cbn. rewrite app_nil_r. split; [done|lia]. }
  split_and!; [done|done|]. intros ->. split; [|done].
  unfold get_eip712_payload.
  destruct (encode Sample.payload) as [parts|e]; [|done]. cbn in *. by injection Hout as <-.
Qed.
End payload_more.

(** ** The signer: key forms and bounds *)

Lemma substring_0_all (s : string) : String.substring 0 (String.length s) s = s.
Proof. induction s as [|c s IH]; [done|]. cbn. by rewrite IH. Qed.

Lemma hex_not_0x (bs : list byte) : startswith_0x (hex bs) = false.
Proof. destruct bs as [|b bs]; [done|]. destruct b; reflexivity. Qed.

Section signer_more.
Context (keccak : list byte -> list byte).
Context {PrivateKey : Type}.
Context (from_hex : string -> result PrivateKey).
Context (sign_recoverable :
           PrivateKey -> list byte -> (list byte -> list byte) -> result (list byte)).

Local Abbreviation sign := (eip712_signature keccak from_hex sign_recoverable).

(** X12: a key given as bytes, as the hex text of those bytes, and as
    that text after [0x], is one and the same key for the signer: the
    three calls have the same outcome. Of a text, one leading [0x] is
    removed. *)
Theorem eip712_signature_key_forms (payload : payload_arg) (bs : list byte) :
  sign payload (KeyBytes bs) = sign payload (KeyStr (hex bs))
  ∧ sign payload (KeyBytes bs) = sign payload (KeyStr ("0x" +:+ hex bs))
  ∧ ∀ h, private_key_hex (KeyStr ("0x" +:+ h)) = h.
Proof.
  assert (∀ h, private_key_hex (KeyStr ("0x" +:+ h)) = h) as Hstrip.
  { intros h. change ("0x" +:+ h) with (String "0" (String "x" h)).
    cbn. rewrite Nat.sub_0_r. apply substring_0_all. }
  assert (private_key_hex (KeyStr (hex bs)) = hex bs) as Hplain.
  { unfold private_key_hex. by rewrite hex_not_0x. }
  split_and!; [|by unfold eip712_signature; rewrite Hstrip|done].
  unfold eip712_signature. by rewrite Hplain.
Qed.

(** X13: with the key accepted, a signature of fewer than 65 bytes is
    an index error; a byte 64 above 228 is an overflow error; in every
    other case the result is [0x] and 130 hex digits, those of the
    first 64 bytes of the signature as they are and of byte 64 plus 27,
    and bytes after the 65th play no part. *)
Theorem eip712_signature_bounds (payload : payload_arg) (private_key : key_arg)
    (pk : PrivateKey) (signature : list byte) :
  from_hex (private_key_hex private_key) = Ok pk ->
  sign_recoverable pk (payload_bytes payload) keccak = Ok signature ->
  (length signature ≤ 64 -> sign payload private_key = Raise IndexError)
  ∧ (∀ b, signature !! 64%nat = Some b ->
          ((228 < Byte.to_N b)%N -> sign payload private_key = Raise OverflowError)
          ∧ ((Byte.to_N b ≤ 228)%N ->
             sign payload private_key
             = Ok ("0x" +:+ hex (take 64 signature ++ [byte_of_N (Byte.to_N b + 27)]))
             ∧ String.length ("0x" +:+ hex (take 64 signature
                                            ++ [byte_of_N (Byte.to_N b + 27)])) = 132)).
Proof.
  intros Hkey Hsign. split_and!.
  - intros Hlen. unfold eip712_signature. rewrite Hkey. cbn [mbind result_bind].
    rewrite Hsign. cbn [mbind result_bind].
    by rewrite (lookup_ge_None_2 signature 64) by lia.
  - intros b Hb.
    assert (64 < length signature) as Hlen by (by eapply lookup_lt_Some).
    assert (length (take 32 signature) = 32) as Hr by (rewrite length_take; lia).
    assert (length (take 32 (drop 32 signature)) = 32) as Hs
      by (rewrite length_take, length_drop; lia).
    assert (take 32 signature ++ take 32 (drop 32 signature) = take 64 signature) as H64.
    { rewrite <- (take_drop 32 (take 64 signature)).
      rewrite take_take, take_drop_commute. f_equal. }
    assert (sign payload private_key
            = vb ← int_to_bytes (Byte.to_N b + 27) 1;
              Ok ("0x" +:+ hex (take 64 signature ++ vb))) as Heq.
    { unfold eip712_signature. rewrite Hkey. cbn [mbind result_bind].
      rewrite Hsign. cbn [mbind result_bind]. rewrite Hb. cbn [mbind result_bind].
      rewrite !int_to_bytes_word by done. cbn [mbind result_bind].
      destruct (int_to_bytes _ 1); [|done]. cbn. by rewrite app_assoc, H64. }
    split.
    + intros Hbig. rewrite Heq. unfold int_to_bytes.
      assert ((Byte.to_N b + 27 <? 256 ^ N.of_nat 1)%N = false) as ->; [|done].
      apply N.ltb_ge. cbn. lia.
    + intros Hsmall. split.
      * rewrite Heq. unfold int_to_bytes.
        assert ((Byte.to_N b + 27 <? 256 ^ N.of_nat 1)%N = true) as ->; [|done].
        apply N.ltb_lt. cbn. lia.
      * rewrite hex_0x_length, length_app, length_take. cbn [length]. lia.
Qed.
End signer_more.

(** * The further properties at the sample *)

(** The resolver called on [Mailbox[]] with [Message] already found. *)
Lemma find_type_dependencies_from_accumulates_witness :
  NoDup ["Message"]
  ∧ size Sample.types < 4
  ∧ find_type_dependencies_from Sample.types 4 "Mailbox[]" ["Message"]
    = Some ["Message"; "Mailbox"]
  ∧ ∃ r new, find_type_dependencies_from Sample.types 4 "Mailbox[]" ["Message"] = Some r
      ∧ r = ["Message"] ++ new
      ∧ NoDup r
      ∧ (∀ x, x ∈ new -> composite Sample.types x ∧ x ∉ ["Message"])
      ∧ find_type_dependencies_from Sample.types 4 "Mailbox[]" r = Some r
      ∧ (∀ fuel', size Sample.types < fuel' ->
           find_type_dependencies_from Sample.types fuel' "Mailbox[]" ["Message"] = Some r).
Proof.
  assert (size Sample.types < 4) as Hsize by (vm_compute; lia).
  split; [apply NoDup_singleton|]. split; [exact Hsize|]. split; [reflexivity|].
  apply (find_type_dependencies_from_accumulates Sample.types 4 "Mailbox[]" ["Message"]);
    [apply NoDup_singleton|exact Hsize].
Defined.

(** [Message[3]] is resolved as [Message]. *)
Lemma find_type_dependencies_array_suffix_witness :
  all_word "Message" = true
  ∧ is_word_char "["%char = false
  ∧ (find_type_dependencies Sample.types ("Message" +:+ String "["%char "3]")
     = find_type_dependencies Sample.types "Message"
     ∧ ∀ fuel results,
         find_type_dependencies_from Sample.types fuel
           ("Message" +:+ String "["%char "3]") results
         = find_type_dependencies_from Sample.types fuel "Message" results).
Proof.
  split; [reflexivity|]. split; [reflexivity|].
  apply (find_type_dependencies_array_suffix Sample.types "Message" "3]" "["%char);
    reflexivity.
Defined.

Lemma sample_types_references (x : string) (fields : list field) (f : field) :
  Sample.types !! x = Some fields -> f ∈ fields ->
  re_split_W_0 (field_type f) ∈ ["string"; "uint256"; "address"; "bool"; "Message"].
Proof.
  intros Hlk Hf. unfold Sample.types in Hlk. apply elem_of_list_to_map_2 in Hlk.
  repeat (apply elem_of_cons in Hlk as [Hlk|Hlk]); try (by apply elem_of_nil in Hlk);
    injection Hlk as -> ->;
    repeat (apply elem_of_cons in Hf as [->|Hf]); try (by apply elem_of_nil in Hf);
    cbn; repeat (first [by left|right]).
Qed.

(** A declaration [Unused] added to the TypeSet of example.py. *)
Lemma encode_type_ignores_unreferenced_witness :
  let fs := [Field "x" "uint8"] in
  Sample.types !! "Unused" = None
  ∧ "Unused" ≠ "Mailbox"
  ∧ "Unused" ≠ re_split_W_0 "Mailbox"
  ∧ (∀ x fields f, Sample.types !! x = Some fields -> f ∈ fields ->
                   re_split_W_0 (field_type f) ≠ "Unused")
  ∧ (find_type_dependencies (<["Unused":=fs]> Sample.types) "Mailbox"
     = find_type_dependencies Sample.types "Mailbox"
     ∧ encode_type (<["Unused":=fs]> Sample.types) "Mailbox"
       = encode_type Sample.types "Mailbox"
     ∧ ∀ keccak, hash_type keccak (<["Unused":=fs]> Sample.types) "Mailbox"
                 = hash_type keccak Sample.types "Mailbox").
Proof.
  assert (∀ x fields f, Sample.types !! x = Some fields -> f ∈ fields ->
                        re_split_W_0 (field_type f) ≠ "Unused") as Href.
  { intros x fields f Hlk Hf Heq.
    pose proof (sample_types_references x fields f Hlk Hf) as Hin. rewrite Heq in Hin.
    repeat (apply elem_of_cons in Hin as [Hin|Hin]; [discriminate Hin|]).
    by apply elem_of_nil in Hin. }
  cbv zeta. split; [reflexivity|]. split; [discriminate|]. split; [discriminate|].
  split; [exact Href|].
  apply (encode_type_ignores_unreferenced Sample.types "Unused" [Field "x" "uint8"]
           "Mailbox"); [reflexivity|discriminate|discriminate|exact Href].
Defined.

(** A [Mail] and the same record with its keys in another order and one
    more key. *)
Lemma encode_data_reads_declared_fields_witness :
  let data_of := encode_data Sample.keccak Sample.to_bytes Sample.abi_encode
                   Sample.int_of_str Sample.mail_types in
  let struct_hash := hash_struct Sample.keccak Sample.to_bytes Sample.abi_encode
                       Sample.int_of_str Sample.mail_types in
  let fields := [Field "n" "uint256"; Field "to" "Person"; Field "contents" "string"] in
  let d' := [("contents", VStr "hi"); ("extra", VInt 1); ("to", VNone); ("n", VInt 5)] in
  Sample.mail_types !! "Mail" = Some fields
  ∧ (∀ f, f ∈ fields -> dict_get Sample.mail_null (field_name f) = dict_get d' (field_name f))
  ∧ (data_of "Mail" (VDict Sample.mail_null) = data_of "Mail" (VDict d')
     ∧ struct_hash "Mail" (VDict Sample.mail_null) = struct_hash "Mail" (VDict d')).
Proof.
  assert (∀ f, f ∈ [Field "n" "uint256"; Field "to" "Person"; Field "contents" "string"] ->
               dict_get Sample.mail_null (field_name f)
               = dict_get [("contents", VStr "hi"); ("extra", VInt 1); ("to", VNone);
                           ("n", VInt 5)] (field_name f)) as Hagree.
  { intros f Hf. repeat (apply elem_of_cons in Hf as [->|Hf]; [reflexivity|]).
    by apply elem_of_nil in Hf. }
  cbv zeta. split; [reflexivity|]. split; [exact Hagree|].
  apply (encode_data_reads_declared_fields Sample.keccak Sample.to_bytes Sample.abi_encode
           Sample.int_of_str Sample.mail_types "Mail" Sample.mail_null _
           [Field "n" "uint256"; Field "to" "Person"; Field "contents" "string"]);
    [reflexivity|exact Hagree].
Defined.

(** What the ABI encoder is given for a [Mail]. *)
Lemma encode_data_abi_input_witness :
  let field_of := _encode_field Sample.keccak Sample.to_bytes Sample.abi_encode
                    Sample.int_of_str Sample.mail_types in
  let data_of := encode_data Sample.keccak Sample.to_bytes Sample.abi_encode
                   Sample.int_of_str Sample.mail_types in
  let out := ok_or [] (data_of "Mail" (VDict Sample.mail_null)) in
  data_of "Mail" (VDict Sample.mail_null) = Ok out
  ∧ ∃ text fields members,
      encode_type Sample.mail_types "Mail" = Ok text
      ∧ Sample.mail_types !! "Mail" = Some fields
      ∧ mapM (encode_member Sample.int_of_str field_of (VDict Sample.mail_null)) fields
        = Ok members
      ∧ Sample.abi_encode ("bytes32" :: members.*1)
          (VBytes (Sample.keccak (String.list_byte_of_string text)) :: members.*2) = Ok out
      ∧ Forall2 (fun f m =>
                   m.2 ≠ VNone
                   ∧ (m.1 = "bytes32"
                      ∨ (m.1 = field_type f ∧ (field_type f ∉ dom Sample.mail_types)
                         ∧ field_type f ≠ "bytes" ∧ field_type f ≠ "string"
                         ∧ endswith_bracket (field_type f) = false)))
                fields members.
Proof.
  cbv zeta. split; [vm_compute; reflexivity|].
  apply (encode_data_abi_input Sample.keccak Sample.to_bytes Sample.abi_encode
           Sample.int_of_str Sample.mail_types "Mail" (VDict Sample.mail_null)).
  vm_compute. reflexivity.
Defined.

(** The first message of example.py as the value of a field of type
    [Message]. *)
Lemma encode_field_nested_struct_witness :
  let field_of := _encode_field Sample.keccak Sample.to_bytes Sample.abi_encode
                    Sample.int_of_str Sample.types in
  let struct_hash := hash_struct Sample.keccak Sample.to_bytes Sample.abi_encode
                       Sample.int_of_str Sample.types in
  Sample.types !! "Message"
  = Some (Field "sender" "address"
          :: [Field "subject" "string"; Field "isSpam" "bool"; Field "body" "string"])
  ∧ Sample.msg1 ≠ VNone
  ∧ (field_of "m" "Message" Sample.msg1
     = (fun h => ("bytes32", VBytes h)) <$> struct_hash "Message" Sample.msg1
     ∧ ((∀ d, Sample.msg1 ≠ VDict d) ->
        field_of "m" "Message" Sample.msg1 = Raise (TypeError "subscript"))).
Proof.
  cbv zeta. split; [reflexivity|]. split; [discriminate|].
  apply (encode_field_nested_struct Sample.keccak Sample.to_bytes Sample.abi_encode
           Sample.int_of_str Sample.types "m" "Message" Sample.msg1
           (Field "sender" "address")
           [Field "subject" "string"; Field "isSpam" "bool"; Field "body" "string"]);
    [reflexivity|discriminate].
Defined.

(** A field [chainId] of type [uint256] whose value is given as the
    text [41], read by a decimal [int]. *)
Lemma encode_member_integer_text_witness :
  let member := encode_member Sample.int_of_decimal
                  (_encode_field Sample.keccak Sample.to_bytes Sample.abi_encode
                     Sample.int_of_decimal Sample.types) in
  let f := Field "chainId" "uint256" in
  ("uint256" ∉ dom Sample.types)
  ∧ is_int_type "uint256" = true
  ∧ Sample.int_of_decimal "41" = Ok 41%Z
  ∧ Sample.int_of_decimal "4x" = Raise (LibraryError "int")
  ∧ member (VDict [("chainId", VStr "41")]) f = Ok ("uint256", VInt 41)
  ∧ member (VDict [("chainId", VStr "4x")]) f = Raise (LibraryError "int")
  ∧ member (VDict [("chainId", VInt 41)]) f = Ok ("uint256", VInt 41).
Proof.
  assert ("uint256" ∉ dom Sample.types) as Hout by (by apply not_elem_of_dom).
  cbv zeta. split; [exact Hout|]. split; [reflexivity|].
  split; [reflexivity|]. split; [reflexivity|].
  split; [|split].
  - destruct (encode_member_integer_text Sample.keccak Sample.to_bytes Sample.abi_encode
                Sample.int_of_decimal Sample.types [("chainId", VStr "41")]
                (Field "chainId" "uint256") Hout) as [Hint _].
    destruct (Hint eq_refl) as [_ Htext].
    destruct (Htext "41" eq_refl) as [Hok _]. exact (Hok 41%Z eq_refl).
  - destruct (encode_member_integer_text Sample.keccak Sample.to_bytes Sample.abi_encode
                Sample.int_of_decimal Sample.types [("chainId", VStr "4x")]
                (Field "chainId" "uint256") Hout) as [Hint _].
    destruct (Hint eq_refl) as [_ Htext].
    destruct (Htext "4x" eq_refl) as [_ Hraise]. exact (Hraise _ eq_refl).
  - destruct (encode_member_integer_text Sample.keccak Sample.to_bytes Sample.abi_encode
                Sample.int_of_decimal Sample.types [("chainId", VInt 41)]
                (Field "chainId" "uint256") Hout) as [Hint _].
    destruct (Hint eq_refl) as [Hnum _]. exact (Hnum 41%Z eq_refl).
Defined.

(** The field [messages] of example.py: one value for two messages. *)
Lemma encode_field_array_entries_witness :
  let field_of := _encode_field Sample.keccak Sample.to_bytes Sample.abi_encode
                    Sample.int_of_str Sample.types in
  let items := [Sample.msg1; Sample.msg2] in
  let out := ok_or ("", VNone) (field_of "messages" "Message[]" (VList items)) in
  ("Message[]" ∉ dom Sample.types)
  ∧ endswith_bracket "Message[]" = true
  ∧ field_of "messages" "Message[]" (VList items) = Ok out
  ∧ ∃ pairs bs,
      mapM (field_of "messages" (drop_last2 "Message[]")) items = Ok pairs
      ∧ Sample.abi_encode (dict_of_pairs pairs).*1 (dict_of_pairs pairs).*2 = Ok bs
      ∧ out = ("bytes32", VBytes (Sample.keccak bs))
      ∧ NoDup (dict_of_pairs pairs).*1
      ∧ (∀ t, t ∈ (dict_of_pairs pairs).*1 -> t = "bytes32" ∨ t = drop_last2 "Message[]")
      ∧ length (dict_of_pairs pairs) ≤ 2
      ∧ length (dict_of_pairs pairs) ≤ length items.
Proof.
  assert ("Message[]" ∉ dom Sample.types) as Hout by (by apply not_elem_of_dom).
  cbv zeta. split; [exact Hout|]. split; [reflexivity|].
  split; [vm_compute; reflexivity|].
  apply (encode_field_array_entries Sample.keccak Sample.to_bytes Sample.abi_encode
           Sample.int_of_str Sample.types "messages" "Message[]"
           [Sample.msg1; Sample.msg2]);
    [exact Hout|reflexivity|vm_compute; reflexivity].
Defined.

(** The joined payload of example.py. *)
Lemma joined_payload_length_witness :
  let encode := eip712_encode Sample.keccak Sample.to_bytes Sample.abi_encode
                  Sample.int_of_str in
  let out := ok_or [] (join_parts <$> encode Sample.payload) in
  (∀ bs, length (Sample.keccak bs) = 32)
  ∧ join_parts <$> encode Sample.payload = Ok out
  ∧ (take 2 out = [x19; x01]
     ∧ length out = (if bool_decide (td_primaryType Sample.payload = "EIP712Domain")
                     then 34 else 66)
     ∧ (Sample.payload = Sample.payload ->
        get_eip712_payload Sample.keccak Sample.to_bytes Sample.abi_encode
          Sample.int_of_str = Ok out ∧ length out = 66)).
Proof.
  cbv zeta. split; [exact sample_keccak_length|]. split; [vm_compute; reflexivity|].
  apply (joined_payload_length Sample.keccak Sample.to_bytes Sample.abi_encode
           Sample.int_of_str Sample.payload);
    [exact sample_keccak_length|vm_compute; reflexivity].
Defined.

(** A payload signed with the key of example.py. *)
Lemma eip712_signature_bounds_witness :
  let payload := PayloadBytes [x19; x01; x00] in
  let private_key := KeyStr Sample.PRIVATE_KEY in
  let pk := "8da4ef21b864d2cc526dbdb2a120bd2874c36c9d0a1fb7f8c63d7f7a8b41de8f" in
  let signature := ok_or [] (Sample.sign_recoverable pk [x19; x01; x00] Sample.keccak) in
  let sign := eip712_signature Sample.keccak Sample.from_hex Sample.sign_recoverable in
  Sample.from_hex (private_key_hex private_key) = Ok pk
  ∧ Sample.sign_recoverable pk (payload_bytes payload) Sample.keccak = Ok signature
  ∧ ((length signature ≤ 64 -> sign payload private_key = Raise IndexError)
     ∧ (∀ b, signature !! 64%nat = Some b ->
             ((228 < Byte.to_N b)%N -> sign payload private_key = Raise OverflowError)
             ∧ ((Byte.to_N b ≤ 228)%N ->
                sign payload private_key
                = Ok ("0x" +:+ hex (take 64 signature ++ [byte_of_N (Byte.to_N b + 27)]))
                ∧ String.length ("0x" +:+ hex (take 64 signature
                                               ++ [byte_of_N (Byte.to_N b + 27)])) = 132))).
Proof.
  cbv zeta. split; [reflexivity|]. split; [reflexivity|].
  apply (eip712_signature_bounds Sample.keccak Sample.from_hex Sample.sign_recoverable
           (PayloadBytes [x19; x01; x00]) (KeyStr Sample.PRIVATE_KEY)
           "8da4ef21b864d2cc526dbdb2a120bd2874c36c9d0a1fb7f8c63d7f7a8b41de8f");
    reflexivity.
Defined.
